(** * adaptd: adapters that add middleware to HTTP handlers

    A shallow embedding of the Go package [adaptd] and of the small part of
    [net/http], [log], [strings], [strconv] and the Prometheus client that
    its adapters call.  Go code that mutates the response, writes to the
    logger or updates a collector is rendered as a computation over an
    explicit [World]; a Go panic is an outcome of such a computation. *)

From Stdlib Require Import ZArith Lia Ascii.
From stdpp Require Import base strings list gmap pretty.

Local Open Scope Z_scope.

(** ** Process state *)

(** The response held by the server connection behind the outermost
    [http.ResponseWriter]. *)
Record Response := mkResponse {
  resp_header : gmap string (list string);  (* the live header map *)
  resp_wroteHeader : bool;
  resp_status : Z;
  resp_body : string
}.

(** The mutable part of one heap-allocated [statusRecorder]: its second
    field, the status (the first field, the writer it wraps, never changes
    and is kept by the method record [statusRecorder]). *)
Record RecorderCell := mkRecorderCell {
  rec_status : Z
}.

Abbreviation Labels := (string * string * string)%type.

Record World := mkWorld {
  conn : Response;
  log_lines : list string;             (* lines emitted by package log *)
  recorders : list RecorderCell;       (* heap of statusRecorder objects *)
  registered : gset string;            (* prometheus default registry *)
  countervecs : list (gmap Labels nat);  (* heap of CounterVec objects *)
  checkNumber : Z                      (* package variable of the tests *)
}.

Definition set_conn (f : Response -> Response) (s : World) : World :=
  mkWorld (f (conn s)) (log_lines s) (recorders s) (registered s)
          (countervecs s) (checkNumber s).
Definition set_log_lines (f : list string -> list string) (s : World) : World :=
  mkWorld (conn s) (f (log_lines s)) (recorders s) (registered s)
          (countervecs s) (checkNumber s).
Definition set_recorders (f : list RecorderCell -> list RecorderCell)
    (s : World) : World :=
  mkWorld (conn s) (log_lines s) (f (recorders s)) (registered s)
          (countervecs s) (checkNumber s).
Definition set_registered (f : gset string -> gset string) (s : World) : World :=
  mkWorld (conn s) (log_lines s) (recorders s) (f (registered s))
          (countervecs s) (checkNumber s).
Definition set_countervecs
    (f : list (gmap Labels nat) -> list (gmap Labels nat)) (s : World) : World :=
  mkWorld (conn s) (log_lines s) (recorders s) (registered s)
          (f (countervecs s)) (checkNumber s).
Definition set_checkNumber (f : Z -> Z) (s : World) : World :=
  mkWorld (conn s) (log_lines s) (recorders s) (registered s)
          (countervecs s) (f (checkNumber s)).

(** ** Computations: state passing with panics *)

(** The value carried by a Go panic (what [recover()] hands back).  It is
    never nil: since Go 1.21 [panic(nil)] raises a [*runtime.PanicNilError]. *)
Inductive PanicValue :=
| PanicBool (b : bool)
| PanicString (msg : string).

Inductive result (A : Type) :=
| Return (a : A)
| Panic (v : PanicValue).
Arguments Return {A} a.
Arguments Panic {A} v.

(** Effects performed before a panic stay in the world. *)
Definition M (A : Type) : Type := World -> result A * World.

Definition ret {A} (a : A) : M A := fun s => (Return a, s).
Definition panic {A} (v : PanicValue) : M A := fun s => (Panic v, s).
Definition bind {A B} (m : M A) (k : A -> M B) : M B :=
  fun s => match m s with
           | (Return a, s') => k a s'
           | (Panic v, s') => (Panic v, s')
           end.

Notation "x <- m ;; k" := (bind m (fun x => k))
  (at level 100, m at next level, k at level 200, right associativity).
Notation "m ;; k" := (bind m (fun _ => k))
  (at level 100, k at level 200, right associativity).

(** [defer func() { e := recover(); deferred e }()] followed by [body]:
    the deferred closure runs on both exits and sees the panic value, if
    any; the panic itself is stopped by [recover]. *)
Definition defer_recover (deferred : option PanicValue -> M unit)
    (body : M unit) : M unit :=
  fun s => match body s with
           | (Return _, s') => deferred None s'
           | (Panic v, s') => deferred (Some v) s'
           end.

Definition modify (f : World -> World) : M unit := fun s => (Return tt, f s).

(** ** Package log *)

(** The standard logger; a line is recorded without its time stamp. *)
Definition log_Println (line : string) : M unit :=
  modify (set_log_lines (fun l => l ++ [line])).

(** [log.Printf], applied to the expanded format. *)
Definition log_Printf (line : string) : M unit := log_Println line.

(** [%v] of a recovered value. *)
Definition fmt_v (v : PanicValue) : string :=
  match v with
  | PanicBool true => "true"
  | PanicBool false => "false"
  | PanicString msg => msg
  end.

(** ** Package net/http *)

Record ConnectionState := mkConnectionState { HandshakeComplete : bool }.

Record URL := mkURL { Path : string; RawQuery : string }.

Record Request := mkRequest {
  Method : string;
  r_URL : URL;
  Host : string;
  TLS : option ConnectionState;       (* nil on a plaintext connection *)
  Header : gmap string (list string)
}.

(** [validHeaderFieldByte]: the token characters of RFC 7230. *)
Definition validHeaderFieldByte (c : ascii) : bool :=
  let n := N_of_ascii c in
  ((48 <=? n) && (n <=? 57) || (65 <=? n) && (n <=? 90)
   || (97 <=? n) && (n <=? 122)
   || existsb (N.eqb n)
        [33; 35; 36; 37; 38; 39; 42; 43; 45; 46; 94; 95; 96; 124; 126])%N.

Fixpoint validHeaderField (s : string) : bool :=
  match s with
  | EmptyString => true
  | String c s' => validHeaderFieldByte c && validHeaderField s'
  end.

(** Upper case for the first letter and for a letter after a dash, lower
    case for every other letter. *)
Fixpoint canonical_letters (upper : bool) (s : string) : string :=
  match s with
  | EmptyString => EmptyString
  | String c s' =>
      let n := N_of_ascii c in
      let c' :=
        (if upper && (97 <=? n) && (n <=? 122) then ascii_of_N (n - 32)
         else if negb upper && (65 <=? n) && (n <=? 90) then ascii_of_N (n + 32)
         else c)%N in
      String c' (canonical_letters (Ascii.eqb c' "-") s')
  end.

(** [textproto.CanonicalMIMEHeaderKey]: a key with a byte that is not a
    token character (a space, for one) is returned as it is. *)
Definition CanonicalMIMEHeaderKey (s : string) : string :=
  if validHeaderField s then canonical_letters true s else s.

(** [Header.Get]: the first value stored under the canonical form of the
    key, or the empty string. *)
Definition Header_Get (h : gmap string (list string)) (key : string) : string :=
  match h !! CanonicalMIMEHeaderKey key with
  | Some (v :: _) => v
  | _ => ""
  end.

(** The interface [http.ResponseWriter], an object as the record of its
    methods ([Header_Set k v] stands for [w.Header().Set(k, v)] and
    [Header_index k] for the map index [w.Header()[k]]). *)
Record ResponseWriter := mkResponseWriter {
  Header_Set : string -> string -> M unit;
  Write : string -> M unit;
  WriteHeader : Z -> M unit;
  Header_index : string -> M (option (list string))
}.

Definition Handler : Type := ResponseWriter -> Request -> M unit.

Definition MethodGet : string := "GET".
Definition StatusOK : Z := 200.
Definition StatusTemporaryRedirect : Z := 307.
Definition StatusNotFound : Z := 404.
Definition StatusMethodNotAllowed : Z := 405.

(** The writer the server hands to the outermost handler (Go 1.19 or
    later).  The first status written wins: a later call only leaves a line
    in the server's error log, which is the standard logger unless the
    server is given its own (the line ends with the position of the caller,
    left out here).  A code outside 100..999 panics.  An informational code
    (1xx, other than 101) is sent at once and the response proper is still
    to come; the lines sent for it are not tracked. *)
Definition conn_WriteHeader (code : Z) : M unit :=
  fun s =>
    if resp_wroteHeader (conn s) then
      (Return tt,
       set_log_lines
         (fun l => l ++ ["http: superfluous response.WriteHeader call"]) s)
    else if (code <? 100) || (999 <? code) then
      (Panic (PanicString ("invalid WriteHeader code " +:+ pretty code)), s)
    else if (code <=? 199) && negb (code =? 101) then (Return tt, s)
    else (Return tt,
          set_conn (fun c => mkResponse (resp_header c) true code (resp_body c)) s).

Definition conn_wroteHeader : M bool :=
  fun s => (Return (resp_wroteHeader (conn s)), s).

(** [Write] sends the header with status 200 first when none was sent. *)
Definition conn_Write (data : string) : M unit :=
  wrote <- conn_wroteHeader ;;
  (if wrote then ret tt else conn_WriteHeader StatusOK) ;;
  modify (set_conn (fun c =>
    mkResponse (resp_header c) (resp_wroteHeader c) (resp_status c)
               (resp_body c +:+ data))).

(** [Header.Set] stores the value under the canonical form of the key. *)
Definition conn_Header_Set (key value : string) : M unit :=
  modify (set_conn (fun c =>
    mkResponse (<[CanonicalMIMEHeaderKey key := [value]]> (resp_header c))
               (resp_wroteHeader c) (resp_status c) (resp_body c))).

Definition conn_Header_index (key : string) : M (option (list string)) :=
  fun s => (Return (resp_header (conn s) !! key), s).

Definition connWriter : ResponseWriter :=
  mkResponseWriter conn_Header_Set conn_Write conn_WriteHeader conn_Header_index.

(** [http.Error]: plain-text headers, the status, the message and a
    newline. *)
Definition http_Error (w : ResponseWriter) (error : string) (code : Z) : M unit :=
  Header_Set w "Content-Type" "text/plain; charset=utf-8" ;;
  Header_Set w "X-Content-Type-Options" "nosniff" ;;
  WriteHeader w code ;;
  Write w (error +:+ "
").

Definition http_NotFound : Handler :=
  fun w r => http_Error w "404 page not found" StatusNotFound.

Definition hexdigit (n : N) : ascii :=
  match n with
  | 0 => "0" | 1 => "1" | 2 => "2" | 3 => "3" | 4 => "4" | 5 => "5"
  | 6 => "6" | 7 => "7" | 8 => "8" | 9 => "9" | 10 => "a" | 11 => "b"
  | 12 => "c" | 13 => "d" | 14 => "e" | _ => "f"
  end%N%char.

(** [hexEscapeNonASCII]: every byte from 0x80 up becomes [%xx]. *)
Fixpoint hexEscapeNonASCII (s : string) : string :=
  match s with
  | EmptyString => EmptyString
  | String c s' =>
      let n := N_of_ascii c in
      if (128 <=? n)%N
      then String "%"%char (String (hexdigit (n / 16)) (String (hexdigit (n mod 16))
             (hexEscapeNonASCII s')))
      else String c (hexEscapeNonASCII s')
  end.

(** The double quote, as a string. *)
Definition dquote : string := String (ascii_of_N 34) "".

(** [htmlEscape]: the five characters that HTML sets apart. *)
Fixpoint htmlEscape (s : string) : string :=
  match s with
  | EmptyString => EmptyString
  | String c s' =>
      let n := N_of_ascii c in
      (if n =? 38 then "&amp;" +:+ htmlEscape s'
       else if n =? 60 then "&lt;" +:+ htmlEscape s'
       else if n =? 62 then "&gt;" +:+ htmlEscape s'
       else if n =? 34 then "&#34;" +:+ htmlEscape s'
       else if n =? 39 then "&#39;" +:+ htmlEscape s'
       else String c (htmlEscape s'))%N
  end.

(** [http.StatusText] *)
Definition http_StatusText (code : Z) : string :=
  match code with
  | 100 => "Continue" | 101 => "Switching Protocols" | 102 => "Processing"
  | 103 => "Early Hints"
  | 200 => "OK" | 201 => "Created" | 202 => "Accepted"
  | 203 => "Non-Authoritative Information" | 204 => "No Content"
  | 205 => "Reset Content" | 206 => "Partial Content" | 207 => "Multi-Status"
  | 208 => "Already Reported" | 226 => "IM Used"
  | 300 => "Multiple Choices" | 301 => "Moved Permanently" | 302 => "Found"
  | 303 => "See Other" | 304 => "Not Modified" | 305 => "Use Proxy"
  | 307 => "Temporary Redirect" | 308 => "Permanent Redirect"
  | 400 => "Bad Request" | 401 => "Unauthorized" | 402 => "Payment Required"
  | 403 => "Forbidden" | 404 => "Not Found" | 405 => "Method Not Allowed"
  | 406 => "Not Acceptable" | 407 => "Proxy Authentication Required"
  | 408 => "Request Timeout" | 409 => "Conflict" | 410 => "Gone"
  | 411 => "Length Required" | 412 => "Precondition Failed"
  | 413 => "Request Entity Too Large" | 414 => "Request URI Too Long"
  | 415 => "Unsupported Media Type" | 416 => "Requested Range Not Satisfiable"
  | 417 => "Expectation Failed" | 418 => "I'm a teapot"
  | 421 => "Misdirected Request" | 422 => "Unprocessable Entity"
  | 423 => "Locked" | 424 => "Failed Dependency" | 425 => "Too Early"
  | 426 => "Upgrade Required" | 428 => "Precondition Required"
  | 429 => "Too Many Requests" | 431 => "Request Header Fields Too Large"
  | 451 => "Unavailable For Legal Reasons"
  | 500 => "Internal Server Error" | 501 => "Not Implemented"
  | 502 => "Bad Gateway" | 503 => "Service Unavailable"
  | 504 => "Gateway Timeout" | 505 => "HTTP Version Not Supported"
  | 506 => "Variant Also Negotiates" | 507 => "Insufficient Storage"
  | 508 => "Loop Detected" | 510 => "Not Extended"
  | 511 => "Network Authentication Required"
  | _ => ""
  end.

(** The short HTML body of a redirect. *)
Definition redirect_body (url : string) (code : Z) : string :=
  "<a href=" +:+ dquote +:+ htmlEscape url +:+ dquote +:+ ">"
  +:+ http_StatusText code +:+ "</a>.
" +:+ "
".

(** [http.Redirect] to a URL that carries its own scheme (a relative URL
    would first be made absolute against the path of the request): the
    [Location] header; for a GET or HEAD request, unless a content type
    is set already, the HTML content type; the status; and for such a
    GET request the short HTML body. *)
Definition http_Redirect (w : ResponseWriter) (r : Request) (url : string)
    (code : Z) : M unit :=
  ct <- Header_index w "Content-Type" ;;
  let hadCT := bool_decide (is_Some ct) in
  Header_Set w "Location" (hexEscapeNonASCII url) ;;
  (if negb hadCT
      && (bool_decide (Method r = "GET") || bool_decide (Method r = "HEAD"))
   then Header_Set w "Content-Type" "text/html; charset=utf-8"
   else ret tt) ;;
  WriteHeader w code ;;
  if negb hadCT && bool_decide (Method r = "GET")
  then Write w (redirect_body url code)
  else ret tt.

(** ** Package adaptd: the composer *)

Definition Adapter : Type := Handler -> Handler.

(** [HandlerChecker] *)
Definition HandlerChecker : Type := ResponseWriter -> Request -> M bool.

(** The loop [for i := len(adapters) - 1; i >= 0; i-- { h = adapters[i](h) }]
    with [n = i + 1] iterations left. *)
Fixpoint Adapt_loop (adapters : list Adapter) (n : nat) (h : Handler) : Handler :=
  match n with
  | O => h
  | S i =>
      match adapters !! i with
      | Some a => Adapt_loop adapters i (a h)
      | None => h   (* not reached: i < len(adapters) *)
      end
  end.

Definition Adapt (h : Handler) (adapters : list Adapter) : Handler :=
  Adapt_loop adapters (length adapters) h.

(** ** Package strings and strconv *)

(** The scan of [strings.Split] for a non-empty separator: [cur] is the
    piece being collected and [skip] counts the bytes of a separator just
    matched that are still to be passed. *)
Fixpoint Split_scan (sep : string) (skip : nat) (cur : string) (s : string)
    : list string :=
  match s with
  | EmptyString => [cur]
  | String c s' =>
      match skip with
      | S k => Split_scan sep k cur s'
      | O =>
          if String.prefix sep s
          then cur :: Split_scan sep (String.length sep - 1) "" s'
          else Split_scan sep 0 (cur +:+ String c "") s'
      end
  end.

(** With an empty separator [strings.Split] cuts after every character
    (after every byte here, which is the same on ASCII). *)
Fixpoint explode (s : string) : list string :=
  match s with
  | EmptyString => []
  | String c s' => String c "" :: explode s'
  end.

Definition strings_Split (s sep : string) : list string :=
  match sep with
  | EmptyString => explode s
  | _ => Split_scan sep 0 "" s
  end.

(** [strconv.Itoa]: the decimal digits, with a minus sign below zero. *)
Definition strconv_Itoa (i : Z) : string := pretty i.

(** ** Package adaptd: adapters shared by the revisions under src/ *)

Definition GetAndOtherRequest (other : Handler) (method : string) : Adapter :=
  fun h w r =>
    if bool_decide (Method r = method) then
      (* Handler the 'other' request method *)
      other w r
    else if bool_decide (Method r = MethodGet) then
      (* Handle the GET request *)
      h w r
    else
      http_Error w "Request method not allowed" StatusMethodNotAllowed.

Definition RequestMethod (method : string) : Adapter :=
  fun h w r =>
    if bool_decide (Method r = method) then h w r
    else http_Error w "Request method not allowed" StatusMethodNotAllowed.

Definition AddHeader (name value : string) : Adapter :=
  fun h w r => Header_Set w name value ;; h w r.

Definition AddHeaderWithFunc (name : string) (tg : M string) : Adapter :=
  fun h w r => v <- tg ;; Header_Set w name v ;; h w r.

Definition DisallowLongerPaths (path : string) (notFoundHandler : Handler)
    : Adapter :=
  fun h w r =>
    if negb (bool_decide (Path (r_URL r) = path)) then
      log_Printf ("Handler expects URL " +:+ path
                  +:+ " but received a request at " +:+ Path (r_URL r)) ;;
      notFoundHandler w r
    else h w r.

Definition isHTTPS (r : Request) (allowXForwardedProto : bool) : bool :=
  match TLS r with
  | Some tls => HandshakeComplete tls
  | None => false
  end
  || (allowXForwardedProto
      && bool_decide (Header_Get (Header r) "X-Forwarded-Proto" = "https")).

Definition EnsureHTTPS (allowXForwardedProto : bool) : Adapter :=
  fun h w r =>
    if negb (isHTTPS r allowXForwardedProto) then
      let target := "https://" +:+ Host r +:+ Path (r_URL r) in
      let target :=
        if bool_decide (0 < Z.of_nat (String.length (RawQuery (r_URL r))))
        then target +:+ "?" +:+ RawQuery (r_URL r)
        else target in
      log_Printf ("redirect to: " +:+ target) ;;
      http_Redirect w r target StatusTemporaryRedirect
    else h w r.

(** A failure value of type [error]; [None] is Go's [nil]. *)
Definition error : Type := option string.

(** ** The first file of src/unnamed/part_000 *)
Module Part000.

Definition AddCookieWithFunc (name : string) (tg : ResponseWriter -> M error)
    : Adapter :=
  fun h w r => tg w ;; h w r.

Definition HTTPSRedirect : Handler :=
  fun w r =>
    let target := "https://" +:+ Host r +:+ Path (r_URL r) in
    let target :=
      if bool_decide (0 < Z.of_nat (String.length (RawQuery (r_URL r))))
      then target +:+ "?" +:+ RawQuery (r_URL r)
      else target in
    log_Printf ("redirect to: " +:+ target) ;;
    http_Redirect w r target StatusTemporaryRedirect.

Definition OnCheck (f : HandlerChecker) (falseHandler : Handler)
    (logOnFalse : string) : Adapter :=
  fun h w r =>
    ok <- f w r ;;
    if negb ok then
      log_Println logOnFalse ;;
      falseHandler w r
    else h w r.

Definition CheckAndRedirect (f : HandlerChecker) (redirect : Handler)
    (logOnRedirect : string) : Adapter :=
  OnCheck f redirect (logOnRedirect +:+ " redirecting").

End Part000.

(** ** The first file of src/unnamed/part_001 *)
Module Part001.

Definition AddCookieWithFunc (name : string)
    (tg : ResponseWriter -> Request -> M error) : Adapter :=
  fun h w r => tg w r ;; h w r.

Definition HTTPSRedirect (port : string) : Handler :=
  fun w r =>
    match strings_Split (Host r) ":" with
    | [] => panic (PanicString "index out of range [0] with length 0")
    | host :: _ =>
        let target := "https://" +:+ host +:+ ":" +:+ port +:+ Path (r_URL r) in
        let target :=
          if bool_decide (0 < Z.of_nat (String.length (RawQuery (r_URL r))))
          then target +:+ "?" +:+ RawQuery (r_URL r)
          else target in
        log_Printf ("HTTP request redirected to: " +:+ target) ;;
        http_Redirect w r target StatusTemporaryRedirect
    end.

(** The deferred closure decides which handler runs: [recover()] hands it
    the value of [panic(false)], or of a panic of [f] itself. *)
Definition OnCheck (f : HandlerChecker) (falseHandler : Handler)
    (logOnFalse : string) : Adapter :=
  fun h w r =>
    defer_recover
      (fun e =>
         match e with
         | Some e =>
             log_Println (fmt_v e) ;;
             log_Println logOnFalse ;;
             falseHandler w r
         | None => h w r
         end)
      (ok <- f w r ;;
       if negb ok then panic (PanicBool false) else ret tt).

Definition CheckAndRedirect (f : HandlerChecker) (redirect : Handler)
    (logOnRedirect : string) : Adapter :=
  OnCheck f redirect (logOnRedirect +:+ " redirecting").

End Part001.

(** ** The second file of src/unnamed/part_001 *)
Module Part001b.

Definition DisallowLongerPaths (path : string) : Adapter :=
  fun h w r =>
    if negb (bool_decide (Path (r_URL r) = path)) then
      log_Printf ("Handler expects URL " +:+ path
                  +:+ " but received a request at " +:+ Path (r_URL r)) ;;
      http_NotFound w r
    else h w r.

End Part001b.

(** ** src/prometheus.go *)

(** [prometheus.NewCounterVec]: a fresh vector without children. *)
Definition prometheus_NewCounterVec : M nat :=
  fun s => (Return (length (countervecs s)),
            set_countervecs (fun l => l ++ [∅]) s).

(** [prometheus.MustRegister] on the default registry, which refuses a
    second collector of the same name. *)
Definition prometheus_MustRegister (name : string) : M unit :=
  fun s =>
    if bool_decide (name ∈ registered s)
    then (Panic (PanicString "duplicate metrics collector registration attempted"), s)
    else (Return tt, set_registered (fun g => {[name]} ∪ g) s).

(** [utf8.ValidString]: [pending] lists the ranges that the continuation
    bytes of the character at hand must still fall in. *)
Fixpoint utf8_valid_from (pending : list (N * N)) (s : string) : bool :=
  match s with
  | EmptyString => match pending with [] => true | _ => false end
  | String c s' =>
      let n := N_of_ascii c in
      (match pending with
       | (lo, hi) :: rest => (lo <=? n) && (n <=? hi) && utf8_valid_from rest s'
       | [] =>
           if n <? 128 then utf8_valid_from [] s'
           else if (194 <=? n) && (n <=? 223) then
             utf8_valid_from [(128, 191)] s'
           else if n =? 224 then utf8_valid_from [(160, 191); (128, 191)] s'
           else if (225 <=? n) && (n <=? 236) || (n =? 238) || (n =? 239) then
             utf8_valid_from [(128, 191); (128, 191)] s'
           else if n =? 237 then utf8_valid_from [(128, 159); (128, 191)] s'
           else if n =? 240 then
             utf8_valid_from [(144, 191); (128, 191); (128, 191)] s'
           else if (241 <=? n) && (n <=? 243) then
             utf8_valid_from [(128, 191); (128, 191); (128, 191)] s'
           else if n =? 244 then
             utf8_valid_from [(128, 143); (128, 191); (128, 191)] s'
           else false
       end)%N
  end.

Definition utf8_ValidString (s : string) : bool := utf8_valid_from [] s.

(** [vec.WithLabelValues(...).Inc()]: [WithLabelValues] panics when a
    label value is not valid UTF-8 (its message also quotes the value);
    otherwise the child is created at zero on its first use and goes up by
    one. *)
Definition CounterVec_Inc (vec : nat) (lvs : Labels) : M unit :=
  fun s =>
    if utf8_ValidString lvs.1.1 && utf8_ValidString lvs.1.2
       && utf8_ValidString lvs.2
    then
      (Return tt,
       set_countervecs (fun l =>
         match l !! vec with
         | Some m => <[vec := <[lvs := S (default 0%nat (m !! lvs))]> m]> l
         | None => l
         end) s)
    else (Panic (PanicString "label value is not valid UTF-8"), s).

Definition counter_value (vec : nat) (lvs : Labels) (s : World) : nat :=
  match countervecs s !! vec with
  | Some m => default 0%nat (m !! lvs)
  | None => 0%nat
  end.

(** [&statusRecorder{w, status}]: a new cell at the next free address; the
    embedded writer [w] is kept by the method record [statusRecorder]. *)
Definition new_statusRecorder (status : Z) : M nat :=
  fun s => (Return (length (recorders s)),
            set_recorders (fun l => l ++ [mkRecorderCell status]) s).

(** Modelled from the spec: the method [WriteHeader] of [statusRecorder] is
    not under src/ (prometheus.go only builds the value and reads its
    [status]).  The shim forwards the call to the writer it wraps; what a
    call leaves in the status field, from what the field held and the code
    set, is the parameter [record]: the struct has no other field to decide
    by. *)
Definition statusRecorder_WriteHeader (record : Z -> Z -> Z)
    (w : ResponseWriter) (sr : nat) (code : Z) : M unit :=
  modify (set_recorders (fun l =>
    match l !! sr with
    | Some c => <[sr := mkRecorderCell (record (rec_status c) code)]> l
    | None => l
    end)) ;;
  WriteHeader w code.

(** The other methods are those of the embedded writer. *)
Definition statusRecorder (record : Z -> Z -> Z) (w : ResponseWriter)
    (sr : nat) : ResponseWriter :=
  mkResponseWriter (Header_Set w) (Write w)
    (statusRecorder_WriteHeader record w sr) (Header_index w).

(** [sr.status] *)
Definition statusRecorder_status (sr : nat) : M Z :=
  fun s =>
    match recorders s !! sr with
    | Some c => (Return (rec_status c), s)
    | None => (Panic (PanicString "invalid memory address or nil pointer dereference"), s)
    end.

(** The adapter that [CountHTTPResponses] returns, a closure over the
    vector [httpRequests]. *)
Definition countingAdapter (record : Z -> Z -> Z) (httpRequests : nat) : Adapter :=
  fun h w r =>
    sr <- new_statusRecorder 200 ;;
    h (statusRecorder record w sr) r ;;
    status <- statusRecorder_status sr ;;
    CounterVec_Inc httpRequests
      (Path (r_URL r), strconv_Itoa status, Method r).

Definition CountHTTPResponses (record : Z -> Z -> Z) : M Adapter :=
  httpRequests <- prometheus_NewCounterVec ;;
  prometheus_MustRegister "http_requests_total" ;;
  ret (countingAdapter record httpRequests).

(** ** Handlers of the tests *)

Definition handlerTester : Handler :=
  fun w r =>
    log_Println "Handling test request" ;;
    modify (set_checkNumber (fun n => n + 1)).

(** ** Package adaptd: the logging adapter *)

(** [defer call] followed by [body]: the deferred call runs when the body
    returns and when it panics; a panic of the body goes on after the call
    (a panic of the call itself takes its place). *)
Definition defer_call (deferred : M unit) (body : M unit) : M unit :=
  fun s => match body s with
           | (Return _, s') => deferred s'
           | (Panic v, s') =>
               match deferred s' with
               | (Return _, s'') => (Panic v, s'')
               | (Panic v', s'') => (Panic v', s'')
               end
           end.

(** A [*log.Logger], an object as its method [Printf] (applied to the
    expanded format; the line is recorded without its final newline). *)
Record Logger := mkLogger { Logger_Printf : string -> M unit }.

Section NotifyAdapter.

(** [%v] of [r.URL]: the method [String] of the URL, of package net/url. *)
Variable URL_String : URL -> string.

Definition Notify (logger : Logger) : Adapter :=
  fun h w r =>
    Logger_Printf logger
      ("Handling " +:+ Method r +:+ " request at URL " +:+ URL_String (r_URL r)) ;;
    defer_call
      (Logger_Printf logger
         (Method r +:+ " request at URL " +:+ URL_String (r_URL r)
          +:+ " was handled"))
      (h w r).

End NotifyAdapter.

(** ** Vocabulary of the statements *)

(** An adapter that delegates: it acts, calls the handler it wraps, and
    acts again when that handler returns. *)
Definition Action : Type := ResponseWriter -> Request -> M unit.

Definition wrapping (before after : Action) : Adapter :=
  fun h w r => before w r ;; h w r ;; after w r.

Fixpoint run_all (acts : list Action) (w : ResponseWriter) (r : Request)
    : M unit :=
  match acts with
  | [] => ret tt
  | a :: acts' => a w r ;; run_all acts' w r
  end.

(** The transport-level TLS handshake of the request completed. *)
Definition handshakeCompleted (r : Request) : Prop :=
  exists tls, TLS r = Some tls /\ HandshakeComplete tls = true.

(** "secure" as the specification words it. *)
Definition secure (allowForwardedProtoHeader : bool) (r : Request) : Prop :=
  handshakeCompleted r
  \/ (allowForwardedProtoHeader = true
      /\ Header_Get (Header r) "X-Forwarded-Proto" = "https").

(** [https://<host><path>], then [?<query>] when the query is not empty. *)
Definition https_url (host path query : string) : string :=
  "https://" +:+ host +:+ path +:+
  match query with
  | EmptyString => ""
  | _ => "?" +:+ query
  end.

(** The part of a string before its first colon. *)
Fixpoint upto_colon (s : string) : string :=
  match s with
  | EmptyString => EmptyString
  | String c s' => if Ascii.eqb c ":" then EmptyString else String c (upto_colon s')
  end.

Fixpoint no_colon (s : string) : Prop :=
  match s with
  | EmptyString => True
  | String c s' => c <> ":"%char /\ no_colon s'
  end.

(** The response a temporary redirect of the request [r] to [url] leaves on
    a connection that has not sent its header: the status, the [Location]
    header and, for a GET or HEAD request without a content type so far,
    the HTML content type, and for such a GET request the HTML body. *)
Definition redirected (r : Request) (url : string) (before after : Response)
    : Prop :=
  let html := negb (bool_decide (is_Some (resp_header before !! "Content-Type"))) in
  resp_status after = 307
  /\ resp_wroteHeader after = true
  /\ resp_header after
     = (if html && (bool_decide (Method r = "GET")
                    || bool_decide (Method r = "HEAD"))
        then <["Content-Type" := ["text/html; charset=utf-8"]]>
               (<["Location" := [hexEscapeNonASCII url]]> (resp_header before))
        else <["Location" := [hexEscapeNonASCII url]]> (resp_header before))
  /\ resp_body after
     = (if html && bool_decide (Method r = "GET")
        then resp_body before +:+ redirect_body url 307
        else resp_body before).

Definition plainRequest : Request :=
  mkRequest "GET" (mkURL "/a" "x=1") "example.com:8080" None ∅.

Definition forwardedRequest : Request :=
  mkRequest "GET" (mkURL "/a" "") "example.com" None
            {["X-Forwarded-Proto" := ["https"]]}.

Definition tlsRequest : Request :=
  mkRequest "GET" (mkURL "/a" "") "example.com" (Some (mkConnectionState true)) ∅.

Definition freshWorld : World :=
  mkWorld (mkResponse ∅ false 0 "") [] [] ∅ [] 0.

(** A request of the tests: [http.NewRequest(method, server.URL + path, nil)]. *)
Definition testRequest (method path : string) : Request :=
  mkRequest method (mkURL path "") "127.0.0.1:8080" None ∅.

(** The response of [http.Error] with the given status and message on a
    connection that has not sent its header yet. *)
Definition answered (code : Z) (msg : string) (before after : Response) : Prop :=
  resp_status after = code
  /\ resp_wroteHeader after = true
  /\ resp_body after = resp_body before +:+ msg +:+ "
".

(** Checkers of the examples. *)
Definition checkFalse : HandlerChecker := fun w r => ret false.
Definition checkTrue : HandlerChecker := fun w r => ret true.
Definition checkPanics : HandlerChecker :=
  fun w r => panic (PanicString "checker failed").

(** A cookie writer that sets its cookie and still reports a failure. *)
Definition failingCookie : ResponseWriter -> Request -> M error :=
  fun w r => Header_Set w "Set-Cookie" "csrf=token" ;; ret (Some "cookie failed").

(** Inner handlers given by what they do to their writer: a handler is a
    script of writer calls and log lines chosen from the request. *)
Inductive Op :=
| OpSetHeader (key value : string)
| OpWrite (data : string)
| OpWriteHeader (code : Z)
| OpLog (line : string).

Definition run_op (w : ResponseWriter) (o : Op) : M unit :=
  match o with
  | OpSetHeader key value => Header_Set w key value
  | OpWrite data => Write w data
  | OpWriteHeader code => WriteHeader w code
  | OpLog line => log_Println line
  end.

Fixpoint run_ops (w : ResponseWriter) (ops : list Op) : M unit :=
  match ops with
  | [] => ret tt
  | o :: ops' => run_op w o ;; run_ops w ops'
  end.

Definition scripted (script : Request -> list Op) : Handler :=
  fun w r => run_ops w (script r).


(** The status codes a script sets, in order. *)
Fixpoint script_statuses (ops : list Op) : list Z :=
  match ops with
  | [] => []
  | OpWriteHeader code :: ops' => code :: script_statuses ops'
  | _ :: ops' => script_statuses ops'
  end.

(** The status the recorder holds after a script: from 200, each status
    set passes through [record]. *)
Definition recorded_status (record : Z -> Z -> Z) (script : Request -> list Op)
    (r : Request) : Z :=
  fold_left record (script_statuses (script r)) 200.


Fixpoint all_ascii (s : string) : Prop :=
  match s with
  | EmptyString => True
  | String c s' => (N_of_ascii c < 128)%N /\ all_ascii s'
  end.

(** A request whose path and method the collector accepts as label
    values. *)
Definition valid_labels (r : Request) : Prop :=
  utf8_ValidString (Path (r_URL r)) = true
  /\ utf8_ValidString (Method r) = true.


Definition has_labels (record : Z -> Z -> Z) (script : Request -> list Op)
    (P : string) (S : Z) (M : string) (r : Request) : Prop :=
  Path (r_URL r) = P /\ recorded_status record script r = S /\ Method r = M.

Global Instance has_labels_dec record script P S M r :
  Decision (has_labels record script P S M r).
Proof. unfold has_labels. apply _. Defined.


(** A recorder that keeps the status set last. *)
Definition lastStatus : Z -> Z -> Z := fun _ code => code.

(** A process with one counter vector, without children. *)
Definition oneVector : World := set_countervecs (fun _ => [∅]) freshWorld.

(** The server gives every request a response of its own. *)
Definition newResponse : M unit :=
  modify (set_conn (fun _ => mkResponse ∅ false 0 "")).

Fixpoint serve (h : Handler) (reqs : list Request) : M unit :=
  match reqs with
  | [] => ret tt
  | r :: reqs' => newResponse ;; h connWriter r ;; serve h reqs'
  end.

(** A handler of the examples: not found on /missing, a body without a
    status of its own elsewhere. *)
Definition exampleScript (r : Request) : list Op :=
  if bool_decide (Path (r_URL r) = "/missing")
  then [OpWriteHeader 404; OpWrite "gone"]
  else [OpSetHeader "Content-Type" "text/plain"; OpWrite "hello"].

(** A logger made by [log.New] with a prefix, writing where the standard
    logger writes. *)
Definition prefixLogger (prefix : string) : Logger :=
  mkLogger (fun line => log_Println (prefix +:+ line)).

(** The rendering of the URLs of the examples: the path, then the query
    after a question mark when there is one. *)
Definition pathAndQuery (u : URL) : string :=
  Path u +:+ match RawQuery u with
             | EmptyString => ""
             | q => "?" +:+ q
             end.

Definition add_lines (lines : list string) (s : World) : World :=
  set_log_lines (fun l => l ++ lines) s.

(** A handler that panics after its first log line. *)
Definition handlerPanic : Handler :=
  fun w r => log_Println "about to fail" ;; panic (PanicString "handler failed").

(** A request like [r] with other headers. *)
Definition withHeader (r : Request) (hdr : gmap string (list string)) : Request :=
  mkRequest (Method r) (r_URL r) (Host r) (TLS r) hdr.

(** A generator of header values that counts its calls. *)
Definition countingToken : M string :=
  fun s => (Return ("token-" +:+ pretty (checkNumber s)),
            set_checkNumber (fun n => n + 1) s).

Definition panickingToken : M string :=
  fun s => (Panic (PanicString "no entropy"), s).

Definition panickingCookie : ResponseWriter -> Request -> M error :=
  fun w r => Header_Set w "Set-Cookie" "partial" ;; panic (PanicString "cookie store down").

(** * Properties *)

(** ** Laws of the computations *)

Lemma bind_ret_l {A B} (a : A) (k : A -> M B) (s : World) :
  (x <- ret a ;; k x) s = k a s.
Proof. reflexivity. Qed.

Lemma bind_ret_r (m : M unit) (s : World) : (m ;; ret tt) s = m s.
Proof. unfold bind, ret. destruct (m s) as [[[]|v] s']; reflexivity. Qed.

Lemma bind_assoc {A B C} (m : M A) (k : A -> M B) (k' : B -> M C) (s : World) :
  (y <- (x <- m ;; k x) ;; k' y) s = (x <- m ;; y <- k x ;; k' y) s.
Proof. unfold bind. destruct (m s) as [[a|v] s']; reflexivity. Qed.

Lemma bind_ext {A B} (m : M A) (k k' : A -> M B) (s : World) :
  (forall a s', k a s' = k' a s') -> (x <- m ;; k x) s = (x <- m ;; k' x) s.
Proof. intros E. unfold bind. destruct (m s) as [[a|v] s']; auto. Qed.

Lemma bind_cong {A B} (m m' : M A) (k : A -> M B) (s : World) :
  m s = m' s -> (x <- m ;; k x) s = (x <- m' ;; k x) s.
Proof. intros E. unfold bind. rewrite E. reflexivity. Qed.

Lemma bind_returns {A B} (m : M A) (k : A -> M B) (s s' : World) (a : A) :
  m s = (Return a, s') -> (x <- m ;; k x) s = k a s'.
Proof. intros E. unfold bind. rewrite E. reflexivity. Qed.

Lemma bind_panics {A B} (m : M A) (k : A -> M B) (s s' : World) v :
  m s = (Panic v, s') -> (x <- m ;; k x) s = (Panic v, s').
Proof. intros E. unfold bind. rewrite E. reflexivity. Qed.

Lemma append_assoc (a b c : string) : (a +:+ b) +:+ c = a +:+ b +:+ c.
Proof.
  induction a as [|x a IH]; [reflexivity|].
  change (String x ((a +:+ b) +:+ c) = String x (a +:+ b +:+ c)).
  now rewrite IH.
Qed.

(** ** The composer *)

Lemma run_all_snoc (acts : list Action) (a : Action) w r s :
  run_all (acts ++ [a]) w r s = (run_all acts w r ;; a w r) s.
Proof.
  revert s. induction acts as [|a0 acts IH]; intros s; simpl.
  - rewrite bind_ret_l. apply bind_ret_r.
  - rewrite bind_assoc. apply bind_ext. intros _ s'. apply IH.
Qed.

(** After the iterations for the indices at and above [length front], the
    loop is left with the adapters of [front]. *)
Lemma Adapt_loop_front (front back : list Adapter) (h : Handler) :
  Adapt_loop (front ++ back) (length front) h = foldr (fun a k => a k) h front.
Proof.
  revert back h. induction front as [|a front IH] using rev_ind; intros back h.
  - reflexivity.
  - rewrite length_app, Nat.add_1_r. simpl.
    rewrite <- app_assoc. simpl.
    rewrite list_lookup_middle by reflexivity.
    rewrite IH, foldr_app. reflexivity.
Qed.

Lemma Adapt_nested (b : Handler) (adapters : list Adapter) :
  Adapt b adapters = foldr (fun a k => a k) b adapters.
Proof.
  unfold Adapt. rewrite <- (app_nil_r adapters) at 1. apply Adapt_loop_front.
Qed.

Lemma Adapt_wrapping (b : Handler) (ps : list (Action * Action)) w r s :
  Adapt b (map (fun p => wrapping (fst p) (snd p)) ps) w r s
  = (run_all (map fst ps) w r ;; b w r ;; run_all (rev (map snd ps)) w r) s.
Proof.
  rewrite Adapt_nested. revert s.
  induction ps as [|[before after] ps IH]; intros s; simpl.
  - rewrite bind_ret_l. symmetry. apply bind_ret_r.
  - unfold wrapping at 1. rewrite (bind_assoc (before w r)).
    apply bind_ext. intros _ s1.
    rewrite (bind_cong (foldr (fun a k => a k) b
                          (map (fun p => wrapping (fst p) (snd p)) ps) w r)
                       (run_all (map fst ps) w r ;; b w r ;;
                        run_all (rev (map snd ps)) w r)) by apply IH.
    rewrite bind_assoc. apply bind_ext. intros _ s2.
    rewrite bind_assoc. apply bind_ext. intros _ s3.
    symmetry. apply run_all_snoc.
Qed.

(** C1: [Adapt b [a0; ...; an-1]] is [a0 (a1 (... (an-1 b)))], built from
    the last adapter toward the first; when every adapter delegates, the
    effects come in the order a0, ..., an-1, b on the way in and in the
    reverse order on the way out. *)
Theorem Adapt_first_is_outermost (b : Handler) :
  (forall adapters : list Adapter,
      Adapt b adapters = foldr (fun a k => a k) b adapters)
  /\ (forall (adapters : list Adapter) (a : Adapter),
         Adapt b (adapters ++ [a]) = Adapt (a b) adapters)
  /\ (forall (a : Adapter) (adapters : list Adapter),
         Adapt b (a :: adapters) = a (Adapt b adapters))
  /\ (forall (ps : list (Action * Action)) w r s,
         Adapt b (map (fun p => wrapping (fst p) (snd p)) ps) w r s
         = (run_all (map fst ps) w r ;; b w r ;;
            run_all (rev (map snd ps)) w r) s).
Proof.
  repeat split.
  - apply Adapt_nested.
  - intros adapters a. rewrite !Adapt_nested, foldr_app. reflexivity.
  - intros a adapters. rewrite !Adapt_nested. reflexivity.
  - apply Adapt_wrapping.
Qed.

(** C2: without adapters the composed handler is the base handler. *)
Theorem Adapt_identity (b : Handler) :
  Adapt b [] = b /\ forall w r s, Adapt b [] w r s = b w r s.
Proof. split; [apply Adapt_nested | intros; now rewrite Adapt_nested]. Qed.

(** ** HTTPS enforcement *)

Lemma isHTTPS_secure (r : Request) (flag : bool) :
  isHTTPS r flag = true <-> secure flag r.
Proof.
  unfold isHTTPS, secure, handshakeCompleted.
  rewrite orb_true_iff, andb_true_iff, bool_decide_eq_true.
  split.
  - intros [E | [E1 E2]]; [left | right; auto].
    destruct (TLS r) as [tls|]; [exists tls; auto | discriminate].
  - intros [(tls & E1 & E2) | [E1 E2]]; [left | right; auto].
    rewrite E1. exact E2.
Qed.

Lemma isHTTPS_not_secure (r : Request) (flag : bool) :
  isHTTPS r flag = false <-> ~ secure flag r.
Proof.
  rewrite <- isHTTPS_secure. destruct (isHTTPS r flag); split; congruence.
Qed.

Lemma append_nil_r (a : string) : a +:+ "" = a.
Proof.
  induction a as [|x a IH]; [reflexivity|].
  change (String x (a +:+ "") = String x a). now rewrite IH.
Qed.

Lemma target_https_url (host path query : string) :
  (if bool_decide (0 < Z.of_nat (String.length query))
   then ("https://" +:+ host +:+ path) +:+ "?" +:+ query
   else "https://" +:+ host +:+ path)
  = https_url host path query.
Proof.
  unfold https_url. destruct query as [|c q].
  - rewrite bool_decide_eq_false_2 by (simpl; lia).
    now rewrite append_nil_r.
  - rewrite bool_decide_eq_true_2 by (simpl; lia).
    now rewrite !append_assoc.
Qed.

Lemma canonical_Location : CanonicalMIMEHeaderKey "Location" = "Location".
Proof. reflexivity. Qed.

Lemma canonical_Content_Type :
  CanonicalMIMEHeaderKey "Content-Type" = "Content-Type".
Proof. reflexivity. Qed.

Lemma http_Redirect_conn (r : Request) (url : string) (s : World) :
  resp_wroteHeader (conn s) = false ->
  exists s', http_Redirect connWriter r url StatusTemporaryRedirect s = (Return tt, s')
             /\ redirected r url (conn s) (conn s')
             /\ log_lines s' = log_lines s.
Proof.
  intros E. unfold http_Redirect, redirected.
  cbn [Header_index Header_Set WriteHeader Write connWriter].
  unfold bind at 1. unfold conn_Header_index at 1.
  destruct (bool_decide (is_Some (resp_header (conn s) !! "Content-Type")));
    destruct (bool_decide (Method r = "GET"));
    destruct (bool_decide (Method r = "HEAD"));
    (eexists; split;
     [ unfold bind, conn_Header_Set, conn_Write, conn_wroteHeader, conn_WriteHeader,
         modify, ret, StatusTemporaryRedirect, StatusOK;
       rewrite ?canonical_Location, ?canonical_Content_Type; simpl;
       rewrite ?E; simpl; reflexivity
     | simpl; repeat split ]).
Qed.

Lemma log_then_Redirect_conn (r : Request) (line url : string) (s : World) :
  resp_wroteHeader (conn s) = false ->
  exists s', (log_Printf line ;;
              http_Redirect connWriter r url StatusTemporaryRedirect) s
             = (Return tt, s')
             /\ redirected r url (conn s) (conn s')
             /\ log_lines s' = log_lines s ++ [line].
Proof.
  intros E.
  destruct (http_Redirect_conn r url (set_log_lines (fun l => l ++ [line]) s) E)
    as (s' & E1 & E2 & E3).
  exists s'. repeat split; try apply E2; [exact E1 | exact E3].
Qed.

(** C3: [EnsureHTTPS flag] hands the request to the primary handler
    exactly when the request is secure (handshake completed, or the flag
    is set and X-Forwarded-Proto is https); otherwise the primary handler
    plays no part and the answer is a 307 redirect to
    https://<host><path>, with ?<query> when the raw query is not empty
    (on the connection: that status and Location, with the HTML content
    type and body that net/http adds for a GET request). *)
Theorem EnsureHTTPS_delegates_iff_secure
    (flag : bool) (h : Handler) (w : ResponseWriter) (r : Request) (s : World) :
  (isHTTPS r flag = true <-> secure flag r)
  /\ (secure flag r -> EnsureHTTPS flag h w r s = h w r s)
  /\ (~ secure flag r ->
      EnsureHTTPS flag h w r s
      = (log_Printf ("redirect to: "
                     +:+ https_url (Host r) (Path (r_URL r)) (RawQuery (r_URL r))) ;;
         http_Redirect w r
           (https_url (Host r) (Path (r_URL r)) (RawQuery (r_URL r)))
           StatusTemporaryRedirect) s
      /\ forall h' : Handler,
           EnsureHTTPS flag h' w r s = EnsureHTTPS flag h w r s)
  /\ (~ secure flag r -> resp_wroteHeader (conn s) = false ->
      exists s', EnsureHTTPS flag h connWriter r s = (Return tt, s')
                 /\ redirected r
                      (https_url (Host r) (Path (r_URL r)) (RawQuery (r_URL r)))
                      (conn s) (conn s')).
Proof.
  assert (R : forall h0 w0, ~ secure flag r ->
            EnsureHTTPS flag h0 w0 r s
            = (log_Printf ("redirect to: "
                 +:+ https_url (Host r) (Path (r_URL r)) (RawQuery (r_URL r))) ;;
               http_Redirect w0 r
                 (https_url (Host r) (Path (r_URL r)) (RawQuery (r_URL r)))
                 StatusTemporaryRedirect) s).
  { intros h0 w0 N. apply isHTTPS_not_secure in N.
    unfold EnsureHTTPS. rewrite N. cbv zeta.
    rewrite target_https_url. reflexivity. }
  split; [apply isHTTPS_secure|]. split; [|split].
  - intros S. apply isHTTPS_secure in S. unfold EnsureHTTPS. now rewrite S.
  - intros N. split; [now apply R|]. intros h'. now rewrite !R.
  - intros N E. rewrite R by exact N.
    destruct (log_then_Redirect_conn r
                ("redirect to: "
                 +:+ https_url (Host r) (Path (r_URL r)) (RawQuery (r_URL r)))
                (https_url (Host r) (Path (r_URL r)) (RawQuery (r_URL r))) s E)
      as (s' & E1 & E2 & _).
    exists s'. auto.
Qed.

(** A plaintext request without the forwarding header is not secure. *)
Lemma plainRequest_not_secure (flag : bool) : ~ secure flag plainRequest.
Proof.
  intros [(tls & E & _) | [_ E]]; [discriminate E|].
  vm_compute in E. discriminate E.
Defined.

(** C3 at three requests: forwarded with the flag set, over TLS, and
    plaintext. *)
Lemma EnsureHTTPS_delegates_iff_secure_witness :
  EnsureHTTPS true handlerTester connWriter forwardedRequest freshWorld
  = handlerTester connWriter forwardedRequest freshWorld
  /\ EnsureHTTPS false handlerTester connWriter tlsRequest freshWorld
     = handlerTester connWriter tlsRequest freshWorld
  /\ exists s', EnsureHTTPS true handlerTester connWriter plainRequest freshWorld
                = (Return tt, s')
                /\ redirected plainRequest "https://example.com:8080/a?x=1"
                     (conn freshWorld) (conn s').
Proof.
  split; [|split].
  - destruct (EnsureHTTPS_delegates_iff_secure true handlerTester connWriter
                forwardedRequest freshWorld) as (_ & D & _).
    apply D. right. split; reflexivity.
  - destruct (EnsureHTTPS_delegates_iff_secure false handlerTester connWriter
                tlsRequest freshWorld) as (_ & D & _).
    apply D. left. exists (mkConnectionState true). split; reflexivity.
  - destruct (EnsureHTTPS_delegates_iff_secure true handlerTester connWriter
                plainRequest freshWorld) as (_ & _ & _ & C).
    apply C; [apply plainRequest_not_secure | reflexivity].
Defined.

(** What the request host splits into at its colons starts with the part
    before the first colon. *)
Lemma Split_scan_colon (cur s : string) :
  exists rest, Split_scan ":" 0 cur s = (cur +:+ upto_colon s) :: rest.
Proof.
  revert cur. induction s as [|c s IH]; intros cur.
  - exists []. simpl. now rewrite append_nil_r.
  - cbn [Split_scan upto_colon String.prefix].
    destruct (ascii_dec ":" c) as [E|N].
    + subst c. rewrite Ascii.eqb_refl.
      assert (P : String.prefix "" s = true) by (destruct s; reflexivity).
      rewrite P. eexists. now rewrite append_nil_r.
    + assert (N' : Ascii.eqb c ":" = false)
        by (apply Ascii.eqb_neq; congruence).
      rewrite N'. destruct (IH (cur +:+ String c "")) as [rest E].
      exists rest. rewrite E, append_assoc. reflexivity.
Qed.

Lemma strings_Split_colon (s : string) :
  exists rest, strings_Split s ":" = upto_colon s :: rest.
Proof. apply (Split_scan_colon "" s). Qed.

Lemma upto_colon_name (name rest : string) :
  no_colon name ->
  upto_colon name = name /\ upto_colon (name +:+ ":" +:+ rest) = name.
Proof.
  induction name as [|c name IH]; intros N; [split; reflexivity|].
  destruct N as [N1 N2]. destruct (IH N2) as [E1 E2].
  assert (N' : Ascii.eqb c ":" = false) by now apply Ascii.eqb_neq.
  change (String c name +:+ ":" +:+ rest)
    with (String c (name +:+ ":" +:+ rest)).
  cbn [upto_colon]. rewrite N', E1, E2. split; reflexivity.
Qed.

Lemma HTTPSRedirect_port_target (port : string) (w : ResponseWriter)
    (r : Request) (s : World) :
  Part001.HTTPSRedirect port w r s
  = (log_Printf ("HTTP request redirected to: "
                 +:+ https_url (upto_colon (Host r) +:+ ":" +:+ port)
                       (Path (r_URL r)) (RawQuery (r_URL r))) ;;
     http_Redirect w r
       (https_url (upto_colon (Host r) +:+ ":" +:+ port)
          (Path (r_URL r)) (RawQuery (r_URL r)))
       StatusTemporaryRedirect) s.
Proof.
  unfold Part001.HTTPSRedirect.
  destruct (strings_Split_colon (Host r)) as [rest E]. rewrite E. cbv zeta.
  replace ("https://" +:+ upto_colon (Host r) +:+ ":" +:+ port +:+ Path (r_URL r))
    with ("https://" +:+ (upto_colon (Host r) +:+ ":" +:+ port) +:+ Path (r_URL r))
    by now rewrite !append_assoc.
  rewrite target_https_url. reflexivity.
Qed.

(** C4, against the claim: the revision of [HTTPSRedirect] that takes a
    port does not keep the host of the request; the port of the request
    gives way to the configured one. *)
Lemma HTTPSRedirect_port_not_same_host :
  resp_header (conn (snd (Part001.HTTPSRedirect "443" connWriter
                            plainRequest freshWorld))) !! "Location"
  = Some ["https://example.com:443/a?x=1"]
  /\ https_url (Host plainRequest) (Path (r_URL plainRequest))
       (RawQuery (r_URL plainRequest))
     = "https://example.com:8080/a?x=1"
  /\ "https://example.com:443/a?x=1" <> "https://example.com:8080/a?x=1".
Proof. split; [|split]; [vm_compute; reflexivity | reflexivity | discriminate]. Qed.

(** C4, amended: [HTTPSRedirect] always answers with a 307 redirect to an
    https URL with the path and the query of the request and never calls
    another handler (it is given none).  The revision without argument
    keeps the host of the request; the revision with a port sends a
    request for host [name] or [name:p] to [name:port]. *)
Theorem HTTPSRedirect_temporary_redirect
    (port name : string) (w : ResponseWriter) (r : Request) (s : World) :
  no_colon name ->
  (Host r = name \/ exists p, Host r = name +:+ ":" +:+ p) ->
  Part000.HTTPSRedirect w r s
  = (log_Printf ("redirect to: "
                 +:+ https_url (Host r) (Path (r_URL r)) (RawQuery (r_URL r))) ;;
     http_Redirect w r
       (https_url (Host r) (Path (r_URL r)) (RawQuery (r_URL r)))
       StatusTemporaryRedirect) s
  /\ Part001.HTTPSRedirect port w r s
     = (log_Printf ("HTTP request redirected to: "
                    +:+ https_url (name +:+ ":" +:+ port)
                          (Path (r_URL r)) (RawQuery (r_URL r))) ;;
        http_Redirect w r
          (https_url (name +:+ ":" +:+ port)
             (Path (r_URL r)) (RawQuery (r_URL r)))
          StatusTemporaryRedirect) s
  /\ (resp_wroteHeader (conn s) = false ->
      exists s0 s1,
        Part000.HTTPSRedirect connWriter r s = (Return tt, s0)
        /\ redirected r
             (https_url (Host r) (Path (r_URL r)) (RawQuery (r_URL r)))
             (conn s) (conn s0)
        /\ Part001.HTTPSRedirect port connWriter r s = (Return tt, s1)
        /\ redirected r
             (https_url (name +:+ ":" +:+ port)
                (Path (r_URL r)) (RawQuery (r_URL r)))
             (conn s) (conn s1)).
Proof.
  intros N H.
  assert (U : upto_colon (Host r) = name).
  { destruct H as [E | [p E]]; rewrite E.
    - apply (upto_colon_name name "" N).
    - apply (upto_colon_name name p N). }
  assert (P0 : forall w0, Part000.HTTPSRedirect w0 r s
            = (log_Printf ("redirect to: "
                 +:+ https_url (Host r) (Path (r_URL r)) (RawQuery (r_URL r))) ;;
               http_Redirect w0 r
                 (https_url (Host r) (Path (r_URL r)) (RawQuery (r_URL r)))
                 StatusTemporaryRedirect) s).
  { intros w0. unfold Part000.HTTPSRedirect. cbv zeta.
    rewrite target_https_url. reflexivity. }
  assert (P1 : forall w0, Part001.HTTPSRedirect port w0 r s
            = (log_Printf ("HTTP request redirected to: "
                 +:+ https_url (name +:+ ":" +:+ port)
                       (Path (r_URL r)) (RawQuery (r_URL r))) ;;
               http_Redirect w0 r
                 (https_url (name +:+ ":" +:+ port)
                    (Path (r_URL r)) (RawQuery (r_URL r)))
                 StatusTemporaryRedirect) s).
  { intros w0. rewrite HTTPSRedirect_port_target, U. reflexivity. }
  split; [apply P0|]. split; [apply P1|].
  intros E. rewrite P0, P1.
  destruct (log_then_Redirect_conn r
              ("redirect to: "
               +:+ https_url (Host r) (Path (r_URL r)) (RawQuery (r_URL r)))
              (https_url (Host r) (Path (r_URL r)) (RawQuery (r_URL r))) s E)
    as (s0 & E0 & R0 & _).
  destruct (log_then_Redirect_conn r
              ("HTTP request redirected to: "
               +:+ https_url (name +:+ ":" +:+ port)
                     (Path (r_URL r)) (RawQuery (r_URL r)))
              (https_url (name +:+ ":" +:+ port)
                 (Path (r_URL r)) (RawQuery (r_URL r))) s E)
    as (s1 & E1 & R1 & _).
  exists s0, s1. auto.
Qed.

(** C4 at a request for example.com:8080 and the port 443. *)
Lemma HTTPSRedirect_temporary_redirect_witness :
  (no_colon "example.com"
   /\ Host plainRequest = "example.com" +:+ ":" +:+ "8080")
  /\ exists s0 s1,
       Part000.HTTPSRedirect connWriter plainRequest freshWorld = (Return tt, s0)
       /\ redirected plainRequest "https://example.com:8080/a?x=1"
            (conn freshWorld) (conn s0)
       /\ Part001.HTTPSRedirect "443" connWriter plainRequest freshWorld
          = (Return tt, s1)
       /\ redirected plainRequest "https://example.com:443/a?x=1"
            (conn freshWorld) (conn s1).
Proof.
  assert (N : no_colon "example.com") by (simpl; repeat split; discriminate).
  split; [split; [exact N | reflexivity]|].
  destruct (HTTPSRedirect_temporary_redirect "443" "example.com" connWriter
              plainRequest freshWorld N) as (_ & _ & C).
  - right. exists "8080". reflexivity.
  - apply C. reflexivity.
Defined.

(** ** Conditional branch *)

Lemma http_Error_conn (msg : string) (code : Z) (s : World) :
  200 <= code <= 999 ->
  resp_wroteHeader (conn s) = false ->
  exists s', http_Error connWriter msg code s = (Return tt, s')
             /\ answered code msg (conn s) (conn s')
             /\ log_lines s' = log_lines s
             /\ checkNumber s' = checkNumber s.
Proof.
  intros C E.
  assert (C1 : (code <? 100) || (999 <? code) = false)
    by (apply orb_false_iff; split; apply Z.ltb_ge; lia).
  assert (C2 : (code <=? 199) = false) by (apply Z.leb_gt; lia).
  eexists. split.
  - unfold http_Error, bind. simpl. unfold conn_WriteHeader. simpl.
    rewrite E, C1, C2. simpl. reflexivity.
  - repeat split.
Qed.

(** C5, against the claim: in the first file of part_001 the false branch
    is taken through [panic(false)] and [recover()].  It logs the recovered
    value before the message, and a checker that panics is answered by the
    else-handler, where the direct conditional lets the panic through. *)
Lemma OnCheck_recover_is_not_a_direct_conditional :
  (log_lines (snd (Part001.OnCheck checkFalse http_NotFound "not logged in"
                     handlerTester connWriter plainRequest freshWorld))
   = ["false"; "not logged in"]
   /\ log_lines (snd (Part000.OnCheck checkFalse http_NotFound "not logged in"
                        handlerTester connWriter plainRequest freshWorld))
      = ["not logged in"])
  /\ (fst (Part001.OnCheck checkPanics http_NotFound "not logged in"
             handlerTester connWriter plainRequest freshWorld)
      = Return tt
      /\ resp_status (conn (snd (Part001.OnCheck checkPanics http_NotFound
                                   "not logged in" handlerTester connWriter
                                   plainRequest freshWorld)))
         = 404
      /\ Part000.OnCheck checkPanics http_NotFound "not logged in"
           handlerTester connWriter plainRequest freshWorld
         = (Panic (PanicString "checker failed"), freshWorld)).
Proof. repeat split. Qed.

(** C5, amended: when the checker returns, exactly one handler runs, the
    primary handler on true and the else-handler, after the log message,
    on false.  The first file of part_000 decides by a direct conditional;
    the first file of part_001 decides by panic and recover, logs the
    recovered value [false] before the message, and sends a request whose
    checker panics to the else-handler as well. *)
Theorem OnCheck_runs_one_handler
    (f : HandlerChecker) (falseHandler : Handler) (logOnFalse : string)
    (h : Handler) (w : ResponseWriter) (r : Request) (s : World) :
  (forall (ok : bool) (s1 : World),
      f w r s = (Return ok, s1) ->
      Part000.OnCheck f falseHandler logOnFalse h w r s
      = (if ok then h w r s1
         else (log_Println logOnFalse ;; falseHandler w r) s1)
      /\ Part001.OnCheck f falseHandler logOnFalse h w r s
         = (if ok then h w r s1
            else (log_Println "false" ;; log_Println logOnFalse ;;
                  falseHandler w r) s1))
  /\ (forall (v : PanicValue) (s1 : World),
         f w r s = (Panic v, s1) ->
         Part000.OnCheck f falseHandler logOnFalse h w r s = (Panic v, s1)
         /\ Part001.OnCheck f falseHandler logOnFalse h w r s
            = (log_Println (fmt_v v) ;; log_Println logOnFalse ;;
               falseHandler w r) s1).
Proof.
  split.
  - intros ok s1 E. split.
    + unfold Part000.OnCheck. rewrite (bind_returns _ _ _ _ _ E).
      destruct ok; reflexivity.
    + unfold Part001.OnCheck, defer_recover.
      rewrite (bind_returns _ _ _ _ _ E). destruct ok; reflexivity.
  - intros v s1 E. split.
    + unfold Part000.OnCheck. apply bind_panics. exact E.
    + unfold Part001.OnCheck, defer_recover.
      rewrite (bind_panics _ _ _ _ _ E). reflexivity.
Qed.

(** C5 at a checker that returns true, one that returns false and one that
    panics. *)
Lemma OnCheck_runs_one_handler_witness :
  Part000.OnCheck checkTrue http_NotFound "not logged in" handlerTester
    connWriter plainRequest freshWorld
  = handlerTester connWriter plainRequest freshWorld
  /\ Part001.OnCheck checkFalse http_NotFound "not logged in" handlerTester
       connWriter plainRequest freshWorld
     = (log_Println "false" ;; log_Println "not logged in" ;;
        http_NotFound connWriter plainRequest) freshWorld
  /\ Part001.OnCheck checkPanics http_NotFound "not logged in" handlerTester
       connWriter plainRequest freshWorld
     = (log_Println "checker failed" ;; log_Println "not logged in" ;;
        http_NotFound connWriter plainRequest) freshWorld.
Proof.
  split; [|split].
  - destruct (OnCheck_runs_one_handler checkTrue http_NotFound "not logged in"
                handlerTester connWriter plainRequest freshWorld) as [R _].
    apply (R true freshWorld). reflexivity.
  - destruct (OnCheck_runs_one_handler checkFalse http_NotFound "not logged in"
                handlerTester connWriter plainRequest freshWorld) as [R _].
    apply (R false freshWorld). reflexivity.
  - destruct (OnCheck_runs_one_handler checkPanics http_NotFound "not logged in"
                handlerTester connWriter plainRequest freshWorld) as [_ P].
    apply (P (PanicString "checker failed") freshWorld). reflexivity.
Defined.

(** ** Method gating *)

Lemma GetAndOtherRequest_cases (other : Handler) (method : string)
    (h : Handler) (w : ResponseWriter) (r : Request) (s : World) :
  GetAndOtherRequest other method h w r s
  = if bool_decide (Method r = method) then other w r s
    else if bool_decide (Method r = "GET") then h w r s
    else http_Error w "Request method not allowed" 405 s.
Proof.
  unfold GetAndOtherRequest, MethodGet, StatusMethodNotAllowed.
  repeat case_bool_decide; reflexivity.
Qed.

(** C6: [GetAndOtherRequest] dispatches three ways, the cases tried in the
    order given.  A request with the configured method goes to the other
    handler; otherwise a GET request goes to the primary handler; every
    other request is answered 405 and reaches neither handler. *)
Theorem GetAndOtherRequest_three_way
    (other : Handler) (method : string) (h : Handler)
    (w : ResponseWriter) (r : Request) (s : World) :
  (Method r = method -> GetAndOtherRequest other method h w r s = other w r s)
  /\ (Method r <> method -> Method r = "GET" ->
      GetAndOtherRequest other method h w r s = h w r s)
  /\ (Method r <> method -> Method r <> "GET" ->
      GetAndOtherRequest other method h w r s
      = http_Error w "Request method not allowed" 405 s
      /\ forall other' h' : Handler,
           GetAndOtherRequest other' method h' w r s
           = GetAndOtherRequest other method h w r s)
  /\ (Method r <> method -> Method r <> "GET" ->
      resp_wroteHeader (conn s) = false ->
      exists s', GetAndOtherRequest other method h connWriter r s = (Return tt, s')
                 /\ resp_status (conn s') = 405).
Proof.
  split; [|split; [|split]].
  - intros E. rewrite GetAndOtherRequest_cases.
    now rewrite bool_decide_eq_true_2.
  - intros N E. rewrite GetAndOtherRequest_cases.
    rewrite bool_decide_eq_false_2 by exact N.
    now rewrite bool_decide_eq_true_2.
  - intros N1 N2. split; [|intros other' h'];
      rewrite !GetAndOtherRequest_cases;
      now rewrite !(bool_decide_eq_false_2 _ N1), !(bool_decide_eq_false_2 _ N2).
  - intros N1 N2 E. rewrite GetAndOtherRequest_cases.
    rewrite (bool_decide_eq_false_2 _ N1), (bool_decide_eq_false_2 _ N2).
    destruct (http_Error_conn "Request method not allowed" 405 s
                ltac:(lia) E)
      as (s' & E1 & (E2 & _) & _).
    exists s'. auto.
Qed.

(** C6 at POST as the configured method, for a POST, a GET and a PUT
    request. *)
Lemma GetAndOtherRequest_three_way_witness :
  GetAndOtherRequest http_NotFound "POST" handlerTester connWriter
    (testRequest "POST" "/login") freshWorld
  = http_NotFound connWriter (testRequest "POST" "/login") freshWorld
  /\ GetAndOtherRequest http_NotFound "POST" handlerTester connWriter
       (testRequest "GET" "/login") freshWorld
     = handlerTester connWriter (testRequest "GET" "/login") freshWorld
  /\ exists s', GetAndOtherRequest http_NotFound "POST" handlerTester connWriter
                  (testRequest "PUT" "/login") freshWorld = (Return tt, s')
                /\ resp_status (conn s') = 405.
Proof.
  split; [|split].
  - destruct (GetAndOtherRequest_three_way http_NotFound "POST" handlerTester
                connWriter (testRequest "POST" "/login") freshWorld) as (A & _).
    apply A. reflexivity.
  - destruct (GetAndOtherRequest_three_way http_NotFound "POST" handlerTester
                connWriter (testRequest "GET" "/login") freshWorld)
      as (_ & B & _).
    apply B; [discriminate | reflexivity].
  - destruct (GetAndOtherRequest_three_way http_NotFound "POST" handlerTester
                connWriter (testRequest "PUT" "/login") freshWorld)
      as (_ & _ & _ & D).
    apply D; [discriminate | discriminate | reflexivity].
Defined.

(** C10: with "GET" as the configured method every GET request runs the
    other handler, and the primary handler is never called: whatever it
    is, the composed handler behaves the same on every request. *)
Theorem GetAndOtherRequest_GET_shadows_primary
    (other h : Handler) (w : ResponseWriter) (r : Request) (s : World) :
  (Method r = "GET" ->
   GetAndOtherRequest other "GET" h w r s = other w r s)
  /\ (Method r <> "GET" ->
      GetAndOtherRequest other "GET" h w r s
      = http_Error w "Request method not allowed" 405 s)
  /\ (forall h' : Handler,
         GetAndOtherRequest other "GET" h' w r s
         = GetAndOtherRequest other "GET" h w r s).
Proof.
  split; [|split].
  - intros E. rewrite GetAndOtherRequest_cases.
    now rewrite bool_decide_eq_true_2.
  - intros N. rewrite GetAndOtherRequest_cases.
    now rewrite !(bool_decide_eq_false_2 _ N).
  - intros h'. rewrite !GetAndOtherRequest_cases.
    destruct (bool_decide (Method r = "GET")); reflexivity.
Qed.

(** C10 at a GET and a POST request. *)
Lemma GetAndOtherRequest_GET_shadows_primary_witness :
  GetAndOtherRequest http_NotFound "GET" handlerTester connWriter
    (testRequest "GET" "/") freshWorld
  = http_NotFound connWriter (testRequest "GET" "/") freshWorld
  /\ GetAndOtherRequest http_NotFound "GET" handlerTester connWriter
       (testRequest "POST" "/") freshWorld
     = http_Error connWriter "Request method not allowed" 405 freshWorld.
Proof.
  split.
  - destruct (GetAndOtherRequest_GET_shadows_primary http_NotFound handlerTester
                connWriter (testRequest "GET" "/") freshWorld) as (A & _).
    apply A. reflexivity.
  - destruct (GetAndOtherRequest_GET_shadows_primary http_NotFound handlerTester
                connWriter (testRequest "POST" "/") freshWorld) as (_ & B & _).
    apply B. discriminate.
Defined.

(** ** Path gating *)

(** C7: [DisallowLongerPaths] calls the primary handler exactly when the
    path of the request equals the configured path; on any other path it
    logs both paths and calls the not-found handler, which may be the
    standard responder (as the older revision has it built in) or the
    caller's own, and the primary handler plays no part. *)
Theorem DisallowLongerPaths_exact_match
    (path : string) (notFoundHandler h : Handler)
    (w : ResponseWriter) (r : Request) (s : World) :
  (Path (r_URL r) = path ->
   DisallowLongerPaths path notFoundHandler h w r s = h w r s)
  /\ (Path (r_URL r) <> path ->
      DisallowLongerPaths path notFoundHandler h w r s
      = (log_Printf ("Handler expects URL " +:+ path
                     +:+ " but received a request at " +:+ Path (r_URL r)) ;;
         notFoundHandler w r) s
      /\ forall h' : Handler,
           DisallowLongerPaths path notFoundHandler h' w r s
           = DisallowLongerPaths path notFoundHandler h w r s)
  /\ Part001b.DisallowLongerPaths path h w r s
     = DisallowLongerPaths path http_NotFound h w r s
  /\ (Path (r_URL r) <> path -> resp_wroteHeader (conn s) = false ->
      exists s', DisallowLongerPaths path http_NotFound h connWriter r s
                 = (Return tt, s')
                 /\ resp_status (conn s') = 404
                 /\ checkNumber s' = checkNumber s).
Proof.
  assert (R : forall nf h0 w0, Path (r_URL r) <> path ->
            DisallowLongerPaths path nf h0 w0 r s
            = (log_Printf ("Handler expects URL " +:+ path
                 +:+ " but received a request at " +:+ Path (r_URL r)) ;;
               nf w0 r) s).
  { intros nf h0 w0 N. unfold DisallowLongerPaths.
    now rewrite (bool_decide_eq_false_2 _ N). }
  split; [|split; [|split]].
  - intros E. unfold DisallowLongerPaths.
    now rewrite (bool_decide_eq_true_2 _ E).
  - intros N. split; [now apply R|]. intros h'. now rewrite !R.
  - reflexivity.
  - intros N E. rewrite R by exact N.
    destruct (http_Error_conn "404 page not found" 404
                (set_log_lines (fun l => l ++ ["Handler expects URL " +:+ path
                   +:+ " but received a request at " +:+ Path (r_URL r)]) s)
                ltac:(lia) E)
      as (s' & E1 & (E2 & _) & _ & E3).
    exists s'. auto.
Qed.

(** C7 at the path /login: the same path, a longer one and a shorter one
    (the last with a handler of the caller as the not-found handler). *)
Lemma DisallowLongerPaths_exact_match_witness :
  DisallowLongerPaths "/login" http_NotFound handlerTester connWriter
    (testRequest "GET" "/login") freshWorld
  = handlerTester connWriter (testRequest "GET" "/login") freshWorld
  /\ (exists s', DisallowLongerPaths "/login" http_NotFound handlerTester
                   connWriter (testRequest "GET" "/login/extra") freshWorld
                 = (Return tt, s')
                 /\ resp_status (conn s') = 404
                 /\ checkNumber s' = checkNumber freshWorld)
  /\ DisallowLongerPaths "/login" handlerTester http_NotFound connWriter
       (testRequest "GET" "/log") freshWorld
     = (log_Printf "Handler expects URL /login but received a request at /log" ;;
        handlerTester connWriter (testRequest "GET" "/log")) freshWorld.
Proof.
  split; [|split].
  - destruct (DisallowLongerPaths_exact_match "/login" http_NotFound
                handlerTester connWriter (testRequest "GET" "/login") freshWorld)
      as (A & _).
    apply A. reflexivity.
  - destruct (DisallowLongerPaths_exact_match "/login" http_NotFound
                handlerTester connWriter (testRequest "GET" "/login/extra")
                freshWorld) as (_ & _ & _ & D).
    apply D; [discriminate | reflexivity].
  - destruct (DisallowLongerPaths_exact_match "/login" handlerTester
                http_NotFound connWriter (testRequest "GET" "/log") freshWorld)
      as (_ & B & _).
    apply B. discriminate.
Defined.

(** ** Cookie injection *)

(** C9: [AddCookieWithFunc] calls the generator on the writer (and, in the
    first file of part_001, the request) and then the primary handler; the
    failure the generator returns is dropped: the outcome is that of the
    primary handler on the state the generator left, whatever it reported. *)
Theorem AddCookieWithFunc_discards_failure
    (name : string) (tg : ResponseWriter -> Request -> M error)
    (tg0 : ResponseWriter -> M error) (h : Handler)
    (w : ResponseWriter) (r : Request) (s s1 s0 : World) (err err0 : error) :
  tg w r s = (Return err, s1) ->
  tg0 w s = (Return err0, s0) ->
  Part001.AddCookieWithFunc name tg h w r s = h w r s1
  /\ Part000.AddCookieWithFunc name tg0 h w r s = h w r s0.
Proof.
  intros E E0. split.
  - unfold Part001.AddCookieWithFunc.
    exact (bind_returns (tg w r) (fun _ => h w r) s s1 err E).
  - unfold Part000.AddCookieWithFunc.
    exact (bind_returns (tg0 w) (fun _ => h w r) s s0 err0 E0).
Qed.

(** C9 at a generator that writes its cookie and reports a failure. *)
Lemma AddCookieWithFunc_discards_failure_witness :
  (failingCookie connWriter plainRequest freshWorld
   = (Return (Some "cookie failed"),
      set_conn (fun c => mkResponse {["Set-Cookie" := ["csrf=token"]]}
                           false 0 "") freshWorld))
  /\ Part001.AddCookieWithFunc "csrf" failingCookie handlerTester connWriter
       plainRequest freshWorld
     = handlerTester connWriter plainRequest
         (set_conn (fun c => mkResponse {["Set-Cookie" := ["csrf=token"]]}
                              false 0 "") freshWorld)
  /\ Part000.AddCookieWithFunc "csrf" (fun w => failingCookie w plainRequest)
       handlerTester connWriter plainRequest freshWorld
     = handlerTester connWriter plainRequest
         (set_conn (fun c => mkResponse {["Set-Cookie" := ["csrf=token"]]}
                              false 0 "") freshWorld).
Proof.
  split; [reflexivity|].
  apply (AddCookieWithFunc_discards_failure "csrf" failingCookie
           (fun w => failingCookie w plainRequest) handlerTester connWriter
           plainRequest freshWorld _ _ (Some "cookie failed")
           (Some "cookie failed")); reflexivity.
Defined.

(** ** Instrumentation *)

Lemma all_ascii_valid (s : string) : all_ascii s -> utf8_ValidString s = true.
Proof.
  unfold utf8_ValidString. induction s as [|c s IH]; [reflexivity|].
  intros [A1 A2]. cbn [utf8_valid_from].
  apply N.ltb_lt in A1. rewrite A1. now apply IH.
Qed.

Lemma pretty_N_char_ascii (x : N) : (N_of_ascii (pretty_N_char x) < 128)%N.
Proof. unfold pretty_N_char. repeat case_match; reflexivity. Qed.

Lemma pretty_N_go_ascii (x : N) (s : string) :
  all_ascii s -> all_ascii (pretty_N_go x s).
Proof.
  revert s. induction (N.lt_wf_0 x) as [x _ IH]. intros s A.
  destruct (decide (x = 0%N)) as [->|N0].
  - now rewrite pretty_N_go_0.
  - rewrite pretty_N_go_step by lia. apply IH.
    + apply N.div_lt; lia.
    + split; [apply pretty_N_char_ascii | exact A].
Qed.

(** The decimal form of a status is a valid label value. *)
Lemma Itoa_valid (i : Z) : utf8_ValidString (strconv_Itoa i) = true.
Proof.
  apply all_ascii_valid. unfold strconv_Itoa, pretty, pretty_Z.
  destruct i as [|p|p].
  - now split.
  - unfold pretty, pretty_positive, pretty, pretty_N.
    case_decide; [now split | now apply pretty_N_go_ascii].
  - split; [reflexivity|].
    unfold pretty, pretty_positive, pretty, pretty_N.
    case_decide; [now split | now apply pretty_N_go_ascii].
Qed.







Lemma CountHTTPResponses_registers (record : Z -> Z -> Z) (s : World) :
  "http_requests_total" ∉ registered s ->
  exists s0, CountHTTPResponses record s
             = (Return (countingAdapter record (length (countervecs s))), s0)
             /\ countervecs s0 = countervecs s ++ [∅]
             /\ forall L : Labels, counter_value (length (countervecs s)) L s0 = 0%nat.
Proof.
  intros N. unfold CountHTTPResponses, bind, prometheus_NewCounterVec,
    prometheus_MustRegister. simpl.
  rewrite bool_decide_eq_false_2 by exact N.
  eexists. split; [reflexivity|]. split; [reflexivity|].
  intros L. unfold counter_value. simpl.
  rewrite list_lookup_middle by reflexivity. now rewrite lookup_empty.
Qed.






(** The same run, computed: two requests counted as 404, one as 200. *)
Example CountHTTPResponses_example :
  let s' := snd ((a <- CountHTTPResponses lastStatus ;;
                  serve (a (scripted exampleScript))
                    [testRequest "GET" "/missing"; testRequest "GET" "/";
                     testRequest "GET" "/missing"]) freshWorld) in
  counter_value 0 ("/missing", "404", "GET") s' = 2%nat
  /\ counter_value 0 ("/", "200", "GET") s' = 1%nat
  /\ counter_value 0 ("/missing", "500", "GET") s' = 0%nat.
Proof. vm_compute. repeat split. Qed.

(** The order law on three logging adapters, computed. *)
Example Adapt_order_example :
  log_lines (snd (Adapt handlerTester
                    (map (fun n => wrapping (fun _ _ => log_Println ("in " +:+ n))
                                            (fun _ _ => log_Println ("out " +:+ n)))
                         ["a0"; "a1"; "a2"])
                    connWriter plainRequest freshWorld))
  = ["in a0"; "in a1"; "in a2"; "Handling test request";
     "out a2"; "out a1"; "out a0"].
Proof. reflexivity. Qed.

(** * Further properties of the package *)

(** ** Composition of chains *)

(** X1: adapting an adapted handler is adapting once with both lists, the
    outer adapters first. *)
Theorem Adapt_app (b : Handler) (outer inner : list Adapter) :
  Adapt (Adapt b inner) outer = Adapt b (outer ++ inner).
Proof. rewrite !Adapt_nested, foldr_app. reflexivity. Qed.

(** ** Logging *)

Lemma add_lines_add_lines (l1 l2 : list string) (s : World) :
  add_lines l2 (add_lines l1 s) = add_lines (l1 ++ l2) s.
Proof. unfold add_lines, set_log_lines. simpl. now rewrite <- app_assoc. Qed.

Lemma add_lines_nil (s : World) : add_lines [] s = s.
Proof.
  unfold add_lines, set_log_lines. rewrite app_nil_r. now destruct s.
Qed.

(** X2: [Notify] logs the start, runs the handler and logs the end on
    every exit of the handler: after a return, and after a panic, which
    then goes on to the caller.  When the first log call panics the
    handler is not run. *)
Theorem Notify_logs_on_every_exit
    (URL_String : URL -> string) (logger : Logger) (h : Handler)
    (w : ResponseWriter) (r : Request) (s : World) :
  (forall s1 s2 s3 (res : result unit),
      Logger_Printf logger
        ("Handling " +:+ Method r +:+ " request at URL " +:+ URL_String (r_URL r)) s
      = (Return tt, s1) ->
      h w r s1 = (res, s2) ->
      Logger_Printf logger
        (Method r +:+ " request at URL " +:+ URL_String (r_URL r) +:+ " was handled") s2
      = (Return tt, s3) ->
      Notify URL_String logger h w r s = (res, s3))
  /\ (forall v s1,
         Logger_Printf logger
           ("Handling " +:+ Method r +:+ " request at URL " +:+ URL_String (r_URL r)) s
         = (Panic v, s1) ->
         forall h' : Handler, Notify URL_String logger h' w r s = (Panic v, s1)).
Proof.
  split.
  - intros s1 s2 s3 res E1 E2 E3. unfold Notify.
    rewrite (bind_returns _ _ _ _ _ E1). unfold defer_call. rewrite E2.
    destruct res as [[]|v]; rewrite E3; reflexivity.
  - intros v s1 E1 h'. unfold Notify. now apply bind_panics.
Qed.

(** X2 at a handler that returns and at one that panics. *)
Lemma Notify_logs_on_every_exit_witness :
  Notify pathAndQuery (prefixLogger "web: ") handlerTester connWriter
    plainRequest freshWorld
  = (Return tt,
     set_checkNumber (fun n => n + 1)
       (add_lines ["web: Handling GET request at URL /a?x=1";
                   "Handling test request";
                   "web: GET request at URL /a?x=1 was handled"] freshWorld))
  /\ Notify pathAndQuery (prefixLogger "web: ") handlerPanic connWriter
       plainRequest freshWorld
     = (Panic (PanicString "handler failed"),
        add_lines ["web: Handling GET request at URL /a?x=1";
                   "about to fail";
                   "web: GET request at URL /a?x=1 was handled"] freshWorld).
Proof.
  split.
  - destruct (Notify_logs_on_every_exit pathAndQuery (prefixLogger "web: ")
                handlerTester connWriter plainRequest freshWorld) as [R _].
    eapply R; reflexivity.
  - destruct (Notify_logs_on_every_exit pathAndQuery (prefixLogger "web: ")
                handlerPanic connWriter plainRequest freshWorld) as [R _].
    eapply R; reflexivity.
Defined.

Lemma Notify_prefixLogger (URL_String : URL -> string) (p : string)
    (h : Handler) (w : ResponseWriter) (r : Request) (s s2 : World)
    (res : result unit) :
  h w r (add_lines [p +:+ "Handling " +:+ Method r +:+ " request at URL "
                    +:+ URL_String (r_URL r)] s) = (res, s2) ->
  Notify URL_String (prefixLogger p) h w r s
  = (res, add_lines [p +:+ Method r +:+ " request at URL "
                     +:+ URL_String (r_URL r) +:+ " was handled"] s2).
Proof.
  intros E. unfold Notify, bind, defer_call. simpl.
  unfold log_Println, modify. unfold add_lines in E. rewrite E.
  destruct res as [[]|v]; reflexivity.
Qed.

(** X3: a chain of [Notify] adapters logs the starts from the first logger
    to the last, then runs the base handler, then logs the ends from the
    last logger back to the first, whether the base handler returns or
    panics. *)
Theorem Notify_chain_order
    (URL_String : URL -> string) (prefixes : list string) (b : Handler)
    (w : ResponseWriter) (r : Request) (s s2 : World) (res : result unit) :
  b w r (add_lines
           (map (fun p => p +:+ "Handling " +:+ Method r +:+ " request at URL "
                          +:+ URL_String (r_URL r)) prefixes) s)
  = (res, s2) ->
  Adapt b (map (fun p => Notify URL_String (prefixLogger p)) prefixes) w r s
  = (res,
     add_lines
       (map (fun p => p +:+ Method r +:+ " request at URL "
                      +:+ URL_String (r_URL r) +:+ " was handled")
            (rev prefixes)) s2).
Proof.
  rewrite Adapt_nested. revert s s2.
  induction prefixes as [|p ps IH]; intros s s2 E.
  - simpl in *. rewrite !add_lines_nil in *. exact E.
  - cbn [map foldr].
    rewrite (Notify_prefixLogger URL_String p _ w r s
               (add_lines
                  (map (fun p0 => p0 +:+ Method r +:+ " request at URL "
                          +:+ URL_String (r_URL r) +:+ " was handled")
                       (rev ps)) s2) res).
    + cbn [rev]. rewrite map_app, add_lines_add_lines. reflexivity.
    + apply IH. rewrite add_lines_add_lines. exact E.
Qed.

(** X3 at two loggers around the handler of the tests. *)
Lemma Notify_chain_order_witness :
  Adapt handlerPanic
    (map (fun p => Notify pathAndQuery (prefixLogger p)) ["outer: "; "inner: "])
    connWriter plainRequest freshWorld
  = (Panic (PanicString "handler failed"),
     add_lines ["outer: GET request at URL /a?x=1 was handled"]
       (add_lines ["inner: GET request at URL /a?x=1 was handled"]
          (add_lines ["about to fail"]
             (add_lines ["outer: Handling GET request at URL /a?x=1";
                         "inner: Handling GET request at URL /a?x=1"]
                freshWorld)))).
Proof.
  rewrite (Notify_chain_order pathAndQuery ["outer: "; "inner: "] handlerPanic
             connWriter plainRequest freshWorld
             (add_lines ["about to fail"]
                (add_lines ["outer: Handling GET request at URL /a?x=1";
                            "inner: Handling GET request at URL /a?x=1"]
                   freshWorld))
             (Panic (PanicString "handler failed")) eq_refl).
  reflexivity.
Defined.

(** ** Method gating, continued *)

Lemma RequestMethod_cases (method : string) (h : Handler)
    (w : ResponseWriter) (r : Request) (s : World) :
  RequestMethod method h w r s
  = if bool_decide (Method r = method) then h w r s
    else http_Error w "Request method not allowed" 405 s.
Proof. unfold RequestMethod. case_bool_decide; reflexivity. Qed.

(** X4: [RequestMethod] runs the handler exactly for requests with the
    given method; every other request is answered 405 with the fixed
    message on a connection that has not sent its header, and the handler
    plays no part. *)
Theorem RequestMethod_allows_one_method
    (method : string) (h : Handler) (w : ResponseWriter) (r : Request)
    (s : World) :
  (Method r = method -> RequestMethod method h w r s = h w r s)
  /\ (Method r <> method ->
      (forall h' : Handler,
          RequestMethod method h' w r s = RequestMethod method h w r s)
      /\ (resp_wroteHeader (conn s) = false ->
          exists s', RequestMethod method h connWriter r s = (Return tt, s')
                     /\ answered 405 "Request method not allowed" (conn s) (conn s')
                     /\ log_lines s' = log_lines s
                     /\ checkNumber s' = checkNumber s)).
Proof.
  split.
  - intros E. rewrite RequestMethod_cases. now rewrite bool_decide_eq_true_2.
  - intros N. split.
    + intros h'. rewrite !RequestMethod_cases.
      now rewrite !(bool_decide_eq_false_2 _ N).
    + intros E. rewrite RequestMethod_cases, (bool_decide_eq_false_2 _ N).
      apply http_Error_conn; [lia | exact E].
Qed.

(** X4 at the method GET, for a GET and a POST request. *)
Lemma RequestMethod_allows_one_method_witness :
  RequestMethod "GET" handlerTester connWriter (testRequest "GET" "/") freshWorld
  = handlerTester connWriter (testRequest "GET" "/") freshWorld
  /\ exists s', RequestMethod "GET" handlerTester connWriter
                  (testRequest "POST" "/") freshWorld = (Return tt, s')
                /\ answered 405 "Request method not allowed"
                     (conn freshWorld) (conn s')
                /\ log_lines s' = log_lines freshWorld
                /\ checkNumber s' = checkNumber freshWorld.
Proof.
  split.
  - destruct (RequestMethod_allows_one_method "GET" handlerTester connWriter
                (testRequest "GET" "/") freshWorld) as [A _].
    apply A. reflexivity.
  - destruct (RequestMethod_allows_one_method "GET" handlerTester connWriter
                (testRequest "POST" "/") freshWorld) as [_ B].
    destruct B as [_ B]; [discriminate|]. apply B. reflexivity.
Defined.

(** X5: [GetAndOtherRequest] is [RequestMethod] on each side of its first
    case: a request with the configured method is treated as by
    [RequestMethod method] around the other handler, any other request as
    by [RequestMethod "GET"] around the primary handler; with "GET"
    configured it is [RequestMethod "GET"] around the other handler. *)
Theorem GetAndOtherRequest_by_RequestMethod
    (other : Handler) (method : string) (h : Handler)
    (w : ResponseWriter) (r : Request) (s : World) :
  GetAndOtherRequest other method h w r s
  = (if bool_decide (Method r = method)
     then RequestMethod method other w r s
     else RequestMethod "GET" h w r s)
  /\ GetAndOtherRequest other "GET" h w r s = RequestMethod "GET" other w r s.
Proof.
  rewrite !GetAndOtherRequest_cases, !RequestMethod_cases. split.
  - destruct (bool_decide (Method r = method)); reflexivity.
  - destruct (bool_decide (Method r = "GET")); reflexivity.
Qed.

(** X6: two [RequestMethod] adapters in one chain admit a request only
    when it has both methods: with the same method the second adds
    nothing, with different methods every request is answered 405 and the
    handler is never run. *)
Theorem RequestMethod_stacked
    (m1 m2 : string) (h : Handler) (w : ResponseWriter) (r : Request)
    (s : World) :
  Adapt h [RequestMethod m1; RequestMethod m1] w r s = RequestMethod m1 h w r s
  /\ (m1 <> m2 ->
      Adapt h [RequestMethod m1; RequestMethod m2] w r s
      = http_Error w "Request method not allowed" 405 s).
Proof.
  rewrite !Adapt_nested. cbn [foldr]. rewrite !RequestMethod_cases. split.
  - destruct (bool_decide (Method r = m1)); reflexivity.
  - intros N. case_bool_decide as E1; [|reflexivity].
    rewrite bool_decide_eq_false_2; [reflexivity | congruence].
Qed.

(** X6 at GET inside POST, for a GET request. *)
Lemma RequestMethod_stacked_witness :
  Adapt handlerTester [RequestMethod "POST"; RequestMethod "GET"] connWriter
    (testRequest "GET" "/") freshWorld
  = http_Error connWriter "Request method not allowed" 405 freshWorld.
Proof.
  destruct (RequestMethod_stacked "POST" "GET" handlerTester connWriter
              (testRequest "GET" "/") freshWorld) as [_ B].
  apply B. discriminate.
Defined.

(** ** Header and cookie injection *)

Lemma set_header_twice (k1 k2 v1 v2 : string) (s : World) :
  CanonicalMIMEHeaderKey k1 = CanonicalMIMEHeaderKey k2 ->
  snd (conn_Header_Set k2 v2 (snd (conn_Header_Set k1 v1 s)))
  = snd (conn_Header_Set k2 v2 s).
Proof.
  intros E. unfold conn_Header_Set, modify, set_conn. simpl.
  now rewrite E, insert_insert_eq.
Qed.

Lemma set_header_commute (k1 v1 k2 v2 : string) (s : World) :
  CanonicalMIMEHeaderKey k1 <> CanonicalMIMEHeaderKey k2 ->
  snd (conn_Header_Set k2 v2 (snd (conn_Header_Set k1 v1 s)))
  = snd (conn_Header_Set k1 v1 (snd (conn_Header_Set k2 v2 s))).
Proof.
  intros N. unfold conn_Header_Set, modify, set_conn. simpl.
  now rewrite (insert_insert_ne _ (CanonicalMIMEHeaderKey k1)
                 (CanonicalMIMEHeaderKey k2)) by exact N.
Qed.

(** X7: on the connection, [AddHeader] replaces whatever the header held
    under the canonical form of the name and then runs the handler; of two
    [AddHeader] adapters in a chain whose names have the same canonical
    form (the same name, or names that differ in case only) the later
    (inner) one decides the value, and adapters whose names differ in
    canonical form can be swapped. *)
Theorem AddHeader_sets_then_delegates
    (k v v' k2 v2 : string) (h : Handler) (r : Request) (s : World) :
  AddHeader k v h connWriter r s
  = h connWriter r
      (set_conn (fun c => mkResponse
                            (<[CanonicalMIMEHeaderKey k := [v]]> (resp_header c))
                            (resp_wroteHeader c) (resp_status c) (resp_body c)) s)
  /\ (CanonicalMIMEHeaderKey k2 = CanonicalMIMEHeaderKey k ->
      Adapt h [AddHeader k2 v'; AddHeader k v] connWriter r s
      = AddHeader k v h connWriter r s)
  /\ (CanonicalMIMEHeaderKey k <> CanonicalMIMEHeaderKey k2 ->
      Adapt h [AddHeader k v; AddHeader k2 v2] connWriter r s
      = Adapt h [AddHeader k2 v2; AddHeader k v] connWriter r s).
Proof.
  split; [reflexivity|]. rewrite !Adapt_nested. cbn [foldr]. split.
  - intros E. unfold AddHeader. cbn [Header_Set connWriter]. unfold bind.
    change (h connWriter r (snd (conn_Header_Set k v (snd (conn_Header_Set k2 v' s))))
            = h connWriter r (snd (conn_Header_Set k v s))).
    now rewrite set_header_twice.
  - intros N. unfold AddHeader. cbn [Header_Set connWriter]. unfold bind.
    change (h connWriter r (snd (conn_Header_Set k2 v2 (snd (conn_Header_Set k v s))))
            = h connWriter r (snd (conn_Header_Set k v (snd (conn_Header_Set k2 v2 s))))).
    now rewrite set_header_commute.
Qed.

(** X7 at two different header names, and at two spellings of one name. *)
Lemma AddHeader_sets_then_delegates_witness :
  Adapt handlerTester
    [AddHeader "X-Frame-Options" "DENY"; AddHeader "Cache-Control" "no-store"]
    connWriter plainRequest freshWorld
  = Adapt handlerTester
      [AddHeader "Cache-Control" "no-store"; AddHeader "X-Frame-Options" "DENY"]
      connWriter plainRequest freshWorld
  /\ Adapt handlerTester [AddHeader "x-a" "1"; AddHeader "X-A" "2"]
       connWriter plainRequest freshWorld
     = AddHeader "X-A" "2" handlerTester connWriter plainRequest freshWorld.
Proof.
  split.
  - destruct (AddHeader_sets_then_delegates "X-Frame-Options" "DENY" ""
                "Cache-Control" "no-store" handlerTester plainRequest freshWorld)
      as (_ & _ & C).
    apply C. discriminate.
  - destruct (AddHeader_sets_then_delegates "X-A" "2" "1" "x-a" ""
                handlerTester plainRequest freshWorld) as (_ & B & _).
    apply B. reflexivity.
Defined.

(** X8: [AddHeaderWithFunc] calls the generator once per request, before
    the handler, and sets the header to what it returned, as [AddHeader]
    does from the state the generator left; when the generator panics,
    neither the header is set nor the handler run. *)
Theorem AddHeaderWithFunc_calls_generator_first
    (name : string) (tg : M string) (h : Handler)
    (w : ResponseWriter) (r : Request) (s : World) :
  (forall v s1, tg s = (Return v, s1) ->
      AddHeaderWithFunc name tg h w r s = AddHeader name v h w r s1)
  /\ (forall v s1, tg s = (Panic v, s1) ->
         forall (h' : Handler) (w' : ResponseWriter),
           AddHeaderWithFunc name tg h' w' r s = (Panic v, s1)).
Proof.
  split.
  - intros v s1 E. unfold AddHeaderWithFunc.
    exact (bind_returns tg _ s s1 v E).
  - intros v s1 E h' w'. unfold AddHeaderWithFunc. now apply bind_panics.
Qed.

(** X8 at a generator that numbers its tokens and at one that panics. *)
Lemma AddHeaderWithFunc_calls_generator_first_witness :
  AddHeaderWithFunc "X-CSRF-Token" countingToken handlerTester connWriter
    plainRequest freshWorld
  = AddHeader "X-CSRF-Token" "token-0" handlerTester connWriter plainRequest
      (set_checkNumber (fun n => n + 1) freshWorld)
  /\ AddHeaderWithFunc "X-CSRF-Token" panickingToken handlerTester connWriter
       plainRequest freshWorld
     = (Panic (PanicString "no entropy"), freshWorld).
Proof.
  split.
  - destruct (AddHeaderWithFunc_calls_generator_first "X-CSRF-Token"
                countingToken handlerTester connWriter plainRequest freshWorld)
      as [A _].
    apply A. reflexivity.
  - destruct (AddHeaderWithFunc_calls_generator_first "X-CSRF-Token"
                panickingToken handlerTester connWriter plainRequest freshWorld)
      as [_ B].
    apply B. reflexivity.
Defined.

(** X9: [AddCookieWithFunc] never uses the name it is given, and a
    generator that panics (rather than returning a failure) stops the
    request: the handler is not run and the panic reaches the caller with
    what the generator had done so far. *)
Theorem AddCookieWithFunc_name_unused_panic_stops
    (name name' : string) (tg : ResponseWriter -> Request -> M error)
    (tg0 : ResponseWriter -> M error) (h : Handler)
    (w : ResponseWriter) (r : Request) (s : World) :
  Part001.AddCookieWithFunc name tg = Part001.AddCookieWithFunc name' tg
  /\ Part000.AddCookieWithFunc name tg0 = Part000.AddCookieWithFunc name' tg0
  /\ (forall v s1, tg w r s = (Panic v, s1) ->
         forall h' : Handler,
           Part001.AddCookieWithFunc name tg h' w r s = (Panic v, s1))
  /\ (forall v s1, tg0 w s = (Panic v, s1) ->
         forall h' : Handler,
           Part000.AddCookieWithFunc name tg0 h' w r s = (Panic v, s1)).
Proof.
  split; [reflexivity|]. split; [reflexivity|]. split.
  - intros v s1 E h'. unfold Part001.AddCookieWithFunc. now apply bind_panics.
  - intros v s1 E h'. unfold Part000.AddCookieWithFunc. now apply bind_panics.
Qed.

(** X9 at a generator that panics after writing part of its cookie. *)
Lemma AddCookieWithFunc_name_unused_panic_stops_witness :
  Part001.AddCookieWithFunc "csrf" panickingCookie handlerTester connWriter
    plainRequest freshWorld
  = (Panic (PanicString "cookie store down"),
     set_conn (fun c => mkResponse {["Set-Cookie" := ["partial"]]} false 0 "")
       freshWorld).
Proof.
  destruct (AddCookieWithFunc_name_unused_panic_stops "csrf" "" panickingCookie
              (fun w => panickingCookie w plainRequest) handlerTester connWriter
              plainRequest freshWorld) as (_ & _ & C & _).
  apply C. reflexivity.
Defined.

(** ** Path gating, continued *)

(** X10: two [DisallowLongerPaths] adapters in one chain let a request
    through only when its path equals both paths: with the same path the
    second adds nothing, with different paths every request ends at a
    not-found handler after one log line and the handler is never run. *)
Theorem DisallowLongerPaths_stacked
    (p1 p2 : string) (nf1 nf2 h : Handler) (w : ResponseWriter) (r : Request)
    (s : World) :
  Adapt h [DisallowLongerPaths p1 nf1; DisallowLongerPaths p1 nf2] w r s
  = DisallowLongerPaths p1 nf1 h w r s
  /\ (p1 <> p2 ->
      Adapt h [DisallowLongerPaths p1 nf1; DisallowLongerPaths p2 nf2] w r s
      = if bool_decide (Path (r_URL r) = p1)
        then (log_Printf ("Handler expects URL " +:+ p2
                          +:+ " but received a request at " +:+ Path (r_URL r)) ;;
              nf2 w r) s
        else (log_Printf ("Handler expects URL " +:+ p1
                          +:+ " but received a request at " +:+ Path (r_URL r)) ;;
              nf1 w r) s).
Proof.
  rewrite !Adapt_nested. cbn [foldr]. unfold DisallowLongerPaths. split.
  - destruct (bool_decide (Path (r_URL r) = p1)); reflexivity.
  - intros N. case_bool_decide as E1; [|reflexivity].
    rewrite bool_decide_eq_false_2; [reflexivity | congruence].
Qed.

(** X10 at /login inside /, for a request to /. *)
Lemma DisallowLongerPaths_stacked_witness :
  Adapt handlerTester
    [DisallowLongerPaths "/" http_NotFound;
     DisallowLongerPaths "/login" http_NotFound]
    connWriter (testRequest "GET" "/") freshWorld
  = (log_Printf "Handler expects URL /login but received a request at /" ;;
     http_NotFound connWriter (testRequest "GET" "/")) freshWorld.
Proof.
  destruct (DisallowLongerPaths_stacked "/" "/login" http_NotFound http_NotFound
              handlerTester connWriter (testRequest "GET" "/") freshWorld)
    as [_ B].
  apply B. discriminate.
Defined.

(** ** HTTPS enforcement, continued *)

Lemma EnsureHTTPS_cases (flag : bool) (h : Handler) (w : ResponseWriter)
    (r : Request) (s : World) :
  EnsureHTTPS flag h w r s
  = if isHTTPS r flag then h w r s else Part000.HTTPSRedirect w r s.
Proof.
  unfold EnsureHTTPS, Part000.HTTPSRedirect.
  destruct (isHTTPS r flag); reflexivity.
Qed.

Lemma isHTTPS_both (r : Request) (a b : bool) :
  isHTTPS r a && isHTTPS r b = isHTTPS r (a && b).
Proof.
  unfold isHTTPS.
  destruct (match TLS r with Some tls => HandshakeComplete tls | None => false end),
    a, b, (bool_decide (Header_Get (Header r) "X-Forwarded-Proto" = "https"));
    reflexivity.
Qed.

(** X11: two [EnsureHTTPS] adapters in one chain act as one that trusts
    the forwarding header only if both do, in either order. *)
Theorem EnsureHTTPS_stacked
    (a b : bool) (h : Handler) (w : ResponseWriter) (r : Request) (s : World) :
  Adapt h [EnsureHTTPS a; EnsureHTTPS b] w r s = EnsureHTTPS (a && b) h w r s
  /\ Adapt h [EnsureHTTPS a; EnsureHTTPS b] w r s
     = Adapt h [EnsureHTTPS b; EnsureHTTPS a] w r s.
Proof.
  rewrite !Adapt_nested. cbn [foldr]. rewrite !EnsureHTTPS_cases.
  rewrite <- (isHTTPS_both r a b).
  destruct (isHTTPS r a), (isHTTPS r b); split; reflexivity.
Qed.

(** X12: without trust in the forwarding header the headers of a request
    play no part: a request on a connection without TLS, or whose
    handshake is not complete, is redirected whatever headers it carries,
    and the handler is not run. *)
Theorem EnsureHTTPS_false_ignores_headers
    (h : Handler) (w : ResponseWriter) (r : Request)
    (hdr : gmap string (list string)) (s : World) :
  (TLS r = None \/ TLS r = Some (mkConnectionState false)) ->
  isHTTPS (withHeader r hdr) false = false
  /\ forall h' : Handler,
       EnsureHTTPS false h' w (withHeader r hdr) s
       = Part000.HTTPSRedirect w (withHeader r hdr) s.
Proof.
  intros T.
  assert (N : isHTTPS (withHeader r hdr) false = false).
  { unfold isHTTPS, withHeader. simpl. destruct T as [-> | ->]; reflexivity. }
  split; [exact N|]. intros h'. rewrite EnsureHTTPS_cases, N. reflexivity.
Qed.

(** X12 at a plaintext request that claims to be forwarded from https. *)
Lemma EnsureHTTPS_false_ignores_headers_witness :
  EnsureHTTPS false handlerTester connWriter
    (withHeader plainRequest {["X-Forwarded-Proto" := ["https"]]}) freshWorld
  = Part000.HTTPSRedirect connWriter
      (withHeader plainRequest {["X-Forwarded-Proto" := ["https"]]}) freshWorld.
Proof.
  destruct (EnsureHTTPS_false_ignores_headers handlerTester connWriter
              plainRequest {["X-Forwarded-Proto" := ["https"]]} freshWorld)
    as [_ B].
  - left. reflexivity.
  - apply B.
Defined.

(** X13: [HTTPSRedirect] with a port never fails on the host: the split of
    the host always has a first piece, so for every host, also one without
    colon or an empty one, the answer is a 307 redirect to the host up to
    its first colon, the given port, the path and the query. *)
Theorem HTTPSRedirect_port_every_host
    (port : string) (w : ResponseWriter) (r : Request) (s : World) :
  Part001.HTTPSRedirect port w r s
  = (log_Printf ("HTTP request redirected to: "
                 +:+ https_url (upto_colon (Host r) +:+ ":" +:+ port)
                       (Path (r_URL r)) (RawQuery (r_URL r))) ;;
     http_Redirect w r
       (https_url (upto_colon (Host r) +:+ ":" +:+ port)
          (Path (r_URL r)) (RawQuery (r_URL r)))
       StatusTemporaryRedirect) s
  /\ (resp_wroteHeader (conn s) = false ->
      exists s', Part001.HTTPSRedirect port connWriter r s = (Return tt, s')
                 /\ redirected r
                      (https_url (upto_colon (Host r) +:+ ":" +:+ port)
                         (Path (r_URL r)) (RawQuery (r_URL r)))
                      (conn s) (conn s')
                 /\ log_lines s'
                    = log_lines s
                      ++ ["HTTP request redirected to: "
                          +:+ https_url (upto_colon (Host r) +:+ ":" +:+ port)
                                (Path (r_URL r)) (RawQuery (r_URL r))]).
Proof.
  split; [apply HTTPSRedirect_port_target|].
  intros E. rewrite HTTPSRedirect_port_target.
  apply log_then_Redirect_conn. exact E.
Qed.

(** X13 at a request without host. *)
Lemma HTTPSRedirect_port_every_host_witness :
  exists s', Part001.HTTPSRedirect "8443" connWriter
               (mkRequest "GET" (mkURL "/" "") "" None ∅) freshWorld
             = (Return tt, s')
             /\ redirected (mkRequest "GET" (mkURL "/" "") "" None ∅)
                  "https://:8443/" (conn freshWorld) (conn s')
             /\ log_lines s' = ["HTTP request redirected to: https://:8443/"].
Proof.
  destruct (HTTPSRedirect_port_every_host "8443" connWriter
              (mkRequest "GET" (mkURL "/" "") "" None ∅) freshWorld) as [_ B].
  apply B. reflexivity.
Defined.

(** ** Conditional branch, continued *)

(** X14: [CheckAndRedirect] is [OnCheck] with the redirect handler as
    else-handler and the log message followed by " redirecting": when the
    checker returns true the primary handler runs on the state the checker
    left and nothing is logged; when it returns false the suffixed message
    is logged (after the recovered value in the first file of part_001)
    and the redirect handler runs. *)
Theorem CheckAndRedirect_branches
    (f : HandlerChecker) (redirect : Handler) (logOnRedirect : string)
    (h : Handler) (w : ResponseWriter) (r : Request) (s s1 : World) (ok : bool) :
  f w r s = (Return ok, s1) ->
  Part000.CheckAndRedirect f redirect logOnRedirect h w r s
  = (if ok then h w r s1
     else (log_Println (logOnRedirect +:+ " redirecting") ;; redirect w r) s1)
  /\ Part001.CheckAndRedirect f redirect logOnRedirect h w r s
     = (if ok then h w r s1
        else (log_Println "false" ;;
              log_Println (logOnRedirect +:+ " redirecting") ;;
              redirect w r) s1).
Proof.
  intros E. split.
  - unfold Part000.CheckAndRedirect, Part000.OnCheck.
    rewrite (bind_returns _ _ _ _ _ E). destruct ok; reflexivity.
  - unfold Part001.CheckAndRedirect, Part001.OnCheck, defer_recover.
    rewrite (bind_returns _ _ _ _ _ E). destruct ok; reflexivity.
Qed.

(** X14 at a checker that returns false and the redirect to https. *)
Lemma CheckAndRedirect_branches_witness :
  Part000.CheckAndRedirect checkFalse Part000.HTTPSRedirect "not over TLS"
    handlerTester connWriter plainRequest freshWorld
  = (log_Println "not over TLS redirecting" ;;
     Part000.HTTPSRedirect connWriter plainRequest) freshWorld
  /\ Part001.CheckAndRedirect checkFalse Part000.HTTPSRedirect "not over TLS"
       handlerTester connWriter plainRequest freshWorld
     = (log_Println "false" ;; log_Println "not over TLS redirecting" ;;
        Part000.HTTPSRedirect connWriter plainRequest) freshWorld.
Proof.
  apply (CheckAndRedirect_branches checkFalse Part000.HTTPSRedirect
           "not over TLS" handlerTester connWriter plainRequest freshWorld
           freshWorld false).
  reflexivity.
Defined.

(** ** Instrumentation, continued *)

(** X15: [CountHTTPResponses] can be called once per process: while the
    collector name is registered, a call panics in [MustRegister]; the
    registry and every counter of the vectors that exist keep their
    values; and a successful call registers the name. *)
Theorem CountHTTPResponses_once (record : Z -> Z -> Z) (s : World) :
  ("http_requests_total" ∈ registered s ->
   exists s1,
     CountHTTPResponses record s
     = (Panic (PanicString "duplicate metrics collector registration attempted"), s1)
     /\ registered s1 = registered s
     /\ forall (vec : nat) (L : Labels),
          (vec < length (countervecs s))%nat ->
          counter_value vec L s1 = counter_value vec L s)
  /\ ("http_requests_total" ∉ registered s ->
      exists a s0 s1,
        CountHTTPResponses record s = (Return a, s0)
        /\ "http_requests_total" ∈ registered s0
        /\ CountHTTPResponses record s0
           = (Panic (PanicString "duplicate metrics collector registration attempted"),
              s1)).
Proof.
  assert (P : forall s0, "http_requests_total" ∈ registered s0 ->
            CountHTTPResponses record s0
            = (Panic (PanicString "duplicate metrics collector registration attempted"),
               set_countervecs (fun l => l ++ [∅]) s0)).
  { intros s0 I. unfold CountHTTPResponses, bind, prometheus_NewCounterVec,
      prometheus_MustRegister. simpl. now rewrite bool_decide_eq_true_2. }
  split.
  - intros I. eexists. split; [apply P, I|]. split; [reflexivity|].
    intros vec L V. unfold counter_value. simpl.
    now rewrite lookup_app_l by exact V.
  - intros N. destruct (CountHTTPResponses_registers record s N) as (s0 & E0 & _).
    assert (I : "http_requests_total" ∈ registered s0).
    { unfold CountHTTPResponses, bind, prometheus_NewCounterVec,
        prometheus_MustRegister in E0. simpl in E0.
      rewrite bool_decide_eq_false_2 in E0 by exact N.
      inversion E0. simpl. set_solver. }
    eexists _, s0, _. split; [exact E0|]. split; [exact I|]. apply P, I.
Qed.

(** X15 at a fresh process. *)
Lemma CountHTTPResponses_once_witness :
  exists a s0 s1,
    CountHTTPResponses lastStatus freshWorld = (Return a, s0)
    /\ "http_requests_total" ∈ registered s0
    /\ CountHTTPResponses lastStatus s0
       = (Panic (PanicString "duplicate metrics collector registration attempted"),
          s1).
Proof.
  destruct (CountHTTPResponses_once lastStatus freshWorld) as [_ B].
  apply B. apply not_elem_of_empty.
Defined.

(** X16: whatever the inner handler is and whatever the recorder keeps,
    when the handler returns and leaves the recorder and the vector in
    place, the counting adapter changes one counter child only: the one
    for the path of the request, the decimal form of the recorder's status
    and the method, which grows by one.  That is for a path and a method
    that are valid UTF-8; otherwise the adapter panics, after the handler
    has run, and counts nothing. *)
Theorem countingAdapter_one_child
    (record : Z -> Z -> Z) (vec : nat) (h : Handler) (w : ResponseWriter)
    (r : Request) (s s2 : World) (c : RecorderCell) (m : gmap Labels nat) :
  h (statusRecorder record w (length (recorders s))) r
    (set_recorders (fun l => l ++ [mkRecorderCell 200]) s)
  = (Return tt, s2) ->
  recorders s2 !! length (recorders s) = Some c ->
  countervecs s2 !! vec = Some m ->
  (valid_labels r ->
   exists s3,
     countingAdapter record vec h w r s = (Return tt, s3)
     /\ counter_value vec
          (Path (r_URL r), strconv_Itoa (rec_status c), Method r) s3
        = S (counter_value vec
               (Path (r_URL r), strconv_Itoa (rec_status c), Method r) s2)
     /\ (forall L : Labels,
            L <> (Path (r_URL r), strconv_Itoa (rec_status c), Method r) ->
            counter_value vec L s3 = counter_value vec L s2)
     /\ conn s3 = conn s2 /\ log_lines s3 = log_lines s2)
  /\ (~ valid_labels r ->
      exists v, countingAdapter record vec h w r s = (Panic v, s2)).
Proof.
  intros E C V.
  assert (R : countingAdapter record vec h w r s
              = CounterVec_Inc vec
                  (Path (r_URL r), strconv_Itoa (rec_status c), Method r) s2).
  { unfold countingAdapter.
    rewrite (bind_returns (new_statusRecorder 200) _ s
               (set_recorders (fun l => l ++ [mkRecorderCell 200]) s)
               (length (recorders s)) eq_refl).
    rewrite (bind_returns _ _ _ _ _ E).
    assert (St : statusRecorder_status (length (recorders s)) s2
                 = (Return (rec_status c), s2)).
    { unfold statusRecorder_status. now rewrite C. }
    now rewrite (bind_returns _ _ _ _ _ St). }
  rewrite R. unfold CounterVec_Inc, valid_labels. cbn [fst snd].
  rewrite Itoa_valid. split.
  - intros [U1 U2]. rewrite U1, U2. cbn [andb].
    eexists. split; [reflexivity|].
    unfold counter_value. simpl. rewrite V.
    rewrite list_lookup_insert_eq by (now apply lookup_lt_Some in V).
    split; [|split; [|split; reflexivity]].
    + now rewrite lookup_insert_eq.
    + intros L N. now rewrite lookup_insert_ne by congruence.
  - intros N.
    destruct (utf8_ValidString (Path (r_URL r))),
      (utf8_ValidString (Method r)); cbn [andb]; try (eexists; reflexivity).
    contradiction N. now split.
Qed.

(** X16 at the handler of the tests, which never touches its writer, for a
    request to / and for one whose path is the single byte 0xff after the
    slash. *)
Lemma countingAdapter_one_child_witness :
  (exists s3,
      countingAdapter lastStatus 0 handlerTester connWriter
        (testRequest "GET" "/") oneVector = (Return tt, s3)
      /\ counter_value 0 ("/", "200", "GET") s3 = 1%nat)
  /\ exists v,
       countingAdapter lastStatus 0 handlerTester connWriter
         (testRequest "GET" (String "/" (String (ascii_of_N 255) ""))) oneVector
       = (Panic v,
          set_checkNumber (fun n => n + 1)
            (add_lines ["Handling test request"]
               (set_recorders (fun l => l ++ [mkRecorderCell 200]) oneVector))).
Proof.
  split.
  - destruct (countingAdapter_one_child lastStatus 0 handlerTester connWriter
                (testRequest "GET" "/") oneVector
                _ (mkRecorderCell 200) ∅ eq_refl eq_refl eq_refl)
      as [A _].
    destruct A as (s3 & E & C & _); [split; reflexivity|].
    exists s3. split; [exact E | exact C].
  - destruct (countingAdapter_one_child lastStatus 0 handlerTester connWriter
                (testRequest "GET" (String "/" (String (ascii_of_N 255) "")))
                oneVector
                _ (mkRecorderCell 200) ∅ eq_refl eq_refl eq_refl)
      as [_ B].
    apply B. intros [U _]. discriminate U.
Defined.

(** ** Panics of the handlers and handlers outside the chain *)

(** X17: [OnCheck] never swallows a panic of a handler.  Also in the first
    file of part_001, where the choice is made by [recover]: the handlers
    run after the recovery, so a panic of the primary handler or of the
    else-handler reaches the caller. *)
Theorem OnCheck_handler_panic_reaches_caller
    (f : HandlerChecker) (falseHandler : Handler) (logOnFalse : string)
    (h : Handler) (w : ResponseWriter) (r : Request) (s s1 s2 : World)
    (ok : bool) (v : PanicValue) :
  f w r s = (Return ok, s1) ->
  (ok = true -> h w r s1 = (Panic v, s2) ->
   Part000.OnCheck f falseHandler logOnFalse h w r s = (Panic v, s2)
   /\ Part001.OnCheck f falseHandler logOnFalse h w r s = (Panic v, s2))
  /\ (ok = false ->
      falseHandler w r (add_lines [logOnFalse] s1) = (Panic v, s2) ->
      Part000.OnCheck f falseHandler logOnFalse h w r s = (Panic v, s2))
  /\ (ok = false ->
      falseHandler w r (add_lines ["false"; logOnFalse] s1) = (Panic v, s2) ->
      Part001.OnCheck f falseHandler logOnFalse h w r s = (Panic v, s2)).
Proof.
  intros E. split; [|split].
  - intros -> H. split.
    + unfold Part000.OnCheck. rewrite (bind_returns _ _ _ _ _ E). exact H.
    + unfold Part001.OnCheck, defer_recover.
      rewrite (bind_returns _ _ _ _ _ E). exact H.
  - intros -> H. unfold Part000.OnCheck.
    rewrite (bind_returns _ _ _ _ _ E). exact H.
  - intros -> H. unfold Part001.OnCheck, defer_recover.
    rewrite (bind_returns _ _ _ _ _ E).
    change (falseHandler w r (add_lines [logOnFalse] (add_lines ["false"] s1))
            = (Panic v, s2)).
    rewrite add_lines_add_lines. exact H.
Qed.

(** X17 at a primary handler that panics. *)
Lemma OnCheck_handler_panic_reaches_caller_witness :
  Part000.OnCheck checkTrue http_NotFound "not logged in" handlerPanic
    connWriter plainRequest freshWorld
  = (Panic (PanicString "handler failed"), add_lines ["about to fail"] freshWorld)
  /\ Part001.OnCheck checkTrue http_NotFound "not logged in" handlerPanic
       connWriter plainRequest freshWorld
     = (Panic (PanicString "handler failed"), add_lines ["about to fail"] freshWorld).
Proof.
  destruct (OnCheck_handler_panic_reaches_caller checkTrue http_NotFound
              "not logged in" handlerPanic connWriter plainRequest freshWorld
              freshWorld (add_lines ["about to fail"] freshWorld) true
              (PanicString "handler failed") eq_refl) as [A _].
  apply A; reflexivity.
Defined.

(** X18: the handlers given to an adapter at construction stand outside
    the chain.  The adapters that follow [GetAndOtherRequest] or
    [DisallowLongerPaths] in a chain wrap the primary handler only: a
    request with the configured method reaches the other handler, and a
    request to another path the not-found handler, without passing
    through them. *)
Theorem alternate_handlers_bypass_inner_adapters
    (h : Handler) (inner : list Adapter) (w : ResponseWriter) (r : Request)
    (s : World) :
  (forall other method,
      Method r = method ->
      Adapt h (GetAndOtherRequest other method :: inner) w r s = other w r s)
  /\ (forall path notFoundHandler,
         Path (r_URL r) <> path ->
         Adapt h (DisallowLongerPaths path notFoundHandler :: inner) w r s
         = (log_Printf ("Handler expects URL " +:+ path
                        +:+ " but received a request at " +:+ Path (r_URL r)) ;;
            notFoundHandler w r) s).
Proof.
  split.
  - intros other method E. rewrite Adapt_nested. cbn [foldr].
    rewrite GetAndOtherRequest_cases. now rewrite bool_decide_eq_true_2.
  - intros path nf N. rewrite Adapt_nested. cbn [foldr].
    unfold DisallowLongerPaths. now rewrite (bool_decide_eq_false_2 _ N).
Qed.

(** X18 at a chain that enforces HTTPS inside the method dispatch: the
    POST handler is reached over plaintext. *)
Lemma alternate_handlers_bypass_inner_adapters_witness :
  Adapt http_NotFound [GetAndOtherRequest handlerTester "POST"; EnsureHTTPS false]
    connWriter (testRequest "POST" "/login") freshWorld
  = handlerTester connWriter (testRequest "POST" "/login") freshWorld.
Proof.
  destruct (alternate_handlers_bypass_inner_adapters http_NotFound
              [EnsureHTTPS false] connWriter (testRequest "POST" "/login")
              freshWorld) as [A _].
  apply A. reflexivity.
Defined.
